(** * d-analyze: upload sniffing, catalog filtering, JSON encoding and the
      HTTP handlers of [app.py] and [file_utils.py]

    The Python code is embedded shallowly.  Strings are [string] (a Python
    [str] is read as its UTF-8 bytes: splitting on the ASCII characters
    ['.'] and ['/'] and comparing a lowercased suffix with ['csv'] give the
    same answers on both), byte blobs are [list byte], dictionaries decoded
    from JSON are [gmap string json], exceptions are values of [exn] carried
    by [Result], and code that touches the request's stream, the upload
    folder or the store runs in the state-and-exception monad [Run].

    Libraries that the repository only calls (chardet, libmagic, codecs,
    werkzeug, requests, pandas, the database module, the completion
    service) are fields of the records [Sniffers] and [Services]. *)

From stdpp Require Import gmap strings list fin_maps pretty.
From Stdlib Require Import Ascii String.

Set Warnings "-register-all".
Open Scope string_scope.

(* ===================================================================== *)
(** ** Python values, exceptions and the execution monad                  *)
(* ===================================================================== *)

Module Py.

(** Exception classes the handlers can meet.  [OtherException] stands for
    any class raised by a collaborator (all derive from [Exception]). *)
Inductive exn_class : Type :=
  | IndexError
  | KeyError
  | TypeError
  | AttributeError
  | UnicodeDecodeError
  | LookupError
  | FileNotFoundError
  | OtherException (name : string).

(** An exception object: its class and [str(e)]. *)
Record exn : Type := Exn { exn_cls : exn_class; exn_str : string }.

Definition is_UnicodeDecodeError (e : exn) : bool :=
  match exn_cls e with UnicodeDecodeError => true | _ => false end.

(** Outcome of evaluating a Python expression. *)
Inductive Result (A : Type) : Type :=
  | Ret (a : A)
  | Raise (e : exn).
Arguments Ret {A} a.
Arguments Raise {A} e.

Definition raised {A} (r : Result A) : bool :=
  match r with Ret _ => false | Raise _ => true end.

(** State and exceptions: the state survives a raise. *)
Definition Run (S A : Type) : Type := S -> Result A * S.

Definition ret {S A} (a : A) : Run S A := fun s => (Ret a, s).
Definition raise {S A} (e : exn) : Run S A := fun s => (Raise e, s).
Definition bind {S A B} (c : Run S A) (k : A -> Run S B) : Run S B :=
  fun s => match c s with
           | (Ret a, s') => k a s'
           | (Raise e, s') => (Raise e, s')
           end.
Definition lift {S A} (r : Result A) : Run S A := fun s => (r, s).
Definition get {S} : Run S S := fun s => (Ret s, s).
Definition put {S} (s : S) : Run S unit := fun _ => (Ret tt, s).
Definition modify {S} (f : S -> S) : Run S unit := fun s => (Ret tt, f s).

(** [try: c  except Exception as e: h e]. *)
Definition try_except {S A} (c : Run S A) (h : exn -> Run S A) : Run S A :=
  fun s => match c s with
           | (Ret a, s') => (Ret a, s')
           | (Raise e, s') => h e s'
           end.

(** [try: c  finally: f].  The clean-up always runs; when it raises, its
    exception replaces the outcome of [c] (also a pending [return]). *)
Definition try_finally {S A} (c : Run S A) (f : Run S unit) : Run S A :=
  fun s => let (r, s') := c s in
           match f s' with
           | (Ret _, s'') => (r, s'')
           | (Raise e, s'') => (Raise e, s'')
           end.

(** Run a computation over a component of the state. *)
Definition zoom {S T A} (proj : S -> T) (inj : T -> S -> S) (c : Run T A) : Run S A :=
  fun s => let (r, t') := c (proj s) in (r, inj t' s).

(** Sequencing of plain outcomes (no state). *)
Definition rbind {A B} (r : Result A) (k : A -> Result B) : Result B :=
  match r with
  | Ret a => k a
  | Raise e => Raise e
  end.

(** [[f(x) for x in l]]: left to right, the first raise ends it. *)
Fixpoint rmap {A B} (f : A -> Result B) (l : list A) : Result (list B) :=
  match l with
  | [] => Ret []
  | x :: rest =>
      rbind (f x) (fun y => rbind (rmap f rest) (fun ys => Ret (y :: ys)))
  end.

Declare Scope result_scope.
Delimit Scope result_scope with result.
Notation "'let*' x := r 'in' k" := (rbind r (fun x => k))
  (at level 10, x name, r at level 100, k at level 200) : result_scope.

Declare Scope run_scope.
Delimit Scope run_scope with run.
Notation "x <- c ;; k" := (bind c (fun x => k))
  (at level 100, c at next level, right associativity) : run_scope.
Notation "c ;;; k" := (bind c (fun _ => k))
  (at level 100, right associativity) : run_scope.

(** A [bytes] object. *)
Abbreviation bytes := (list Byte.byte).

(** *** Strings *)

Definition lower_ascii (a : ascii) : ascii :=
  let n := N_of_ascii a in
  if ((65 <=? n) && (n <=? 90))%N then ascii_of_N (n + 32) else a.

(** [s.lower()], on the ASCII letters. *)
Fixpoint lower (s : string) : string :=
  match s with
  | EmptyString => EmptyString
  | String a s' => String (lower_ascii a) (lower s')
  end.

(** Position of the last occurrence of [c]: the text before it and the
    text after it. *)
Fixpoint rsplit_last (c : ascii) (s : string) : option (string * string) :=
  match s with
  | EmptyString => None
  | String a s' =>
      match rsplit_last c s' with
      | Some (pre, suf) => Some (String a pre, suf)
      | None => if Ascii.eqb a c then Some (EmptyString, s') else None
      end
  end.

(** [s.rsplit(c, 1)]. *)
Definition rsplit1 (c : ascii) (s : string) : list string :=
  match rsplit_last c s with
  | Some (pre, suf) => [pre; suf]
  | None => [s]
  end.

(** [s.split(c)]. *)
Fixpoint split (c : ascii) (s : string) : list string :=
  match s with
  | EmptyString => [EmptyString]
  | String a s' =>
      if Ascii.eqb a c then EmptyString :: split c s'
      else match split c s' with
           | h :: t => String a h :: t
           | [] => [String a EmptyString]
           end
  end.

(** [l[i]] for a non-negative index. *)
Definition index {A} (l : list A) (i : nat) : Result A :=
  match l !! i with
  | Some a => Ret a
  | None => Raise (Exn IndexError "list index out of range")
  end.

(** [l[-1]]. *)
Definition index_last {A} (l : list A) : Result A :=
  match last l with
  | Some a => Ret a
  | None => Raise (Exn IndexError "list index out of range")
  end.

(** [c in s] for a character. *)
Fixpoint contains_char (c : ascii) (s : string) : bool :=
  match s with
  | EmptyString => false
  | String a s' => Ascii.eqb a c || contains_char c s'
  end.

(** [sub in s] for strings. *)
Fixpoint is_substring (sub s : string) : bool :=
  String.prefix sub s
  || match s with
     | EmptyString => false
     | String _ s' => is_substring sub s'
     end.

(** [sep.join(parts)]. *)
Fixpoint join (sep : string) (parts : list string) : string :=
  match parts with
  | [] => EmptyString
  | [p] => p
  | p :: rest => p ++ sep ++ join sep rest
  end.

(** *** Values decoded from JSON *)

(** What [json.loads], [request.get_json()] and [response.json()] return,
    and what [jsonify] takes.  Numbers are the integers. *)
Inductive json : Type :=
  | JNull
  | JBool (b : bool)
  | JInt (z : Z)
  | JStr (s : string)
  | JList (l : list json)
  | JObj (m : gmap string json).

(** [bool(v)]. *)
Definition truthy (v : json) : bool :=
  match v with
  | JNull => false
  | JBool b => b
  | JInt z => negb (z =? 0)%Z
  | JStr s => negb (String.eqb s EmptyString)
  | JList l => match l with [] => false | _ => true end
  | JObj m => negb (Nat.eqb (size m) 0)
  end.

Definition type_name (v : json) : string :=
  match v with
  | JNull => "NoneType"
  | JBool _ => "bool"
  | JInt _ => "int"
  | JStr _ => "str"
  | JList _ => "list"
  | JObj _ => "dict"
  end.

Definition is_str (k : string) (v : json) : bool :=
  match v with JStr s => String.eqb s k | _ => false end.

(** [k in v] for a string [k]: key test on a dict, element test on a list,
    substring test on a string; other values are not containers. *)
Definition contains (k : string) (v : json) : Result bool :=
  match v with
  | JObj m => Ret (match m !! k with Some _ => true | None => false end)
  | JList l => Ret (existsb (is_str k) l)
  | JStr s => Ret (is_substring k s)
  | _ => Raise (Exn TypeError
                  ("argument of type '" ++ type_name v ++ "' is not iterable"))
  end.

(** [v[k]] for a string [k]. *)
Definition getitem (v : json) (k : string) : Result json :=
  match v with
  | JObj m =>
      match m !! k with
      | Some x => Ret x
      | None => Raise (Exn KeyError ("'" ++ k ++ "'"))
      end
  | JList _ => Raise (Exn TypeError "list indices must be integers or slices, not str")
  | JStr _ => Raise (Exn TypeError "string indices must be integers, not 'str'")
  | _ => Raise (Exn TypeError
                  ("'" ++ type_name v ++ "' object is not subscriptable"))
  end.

(** [v[k] = x] for a string [k]. *)
Definition setitem (v : json) (k : string) (x : json) : Result json :=
  match v with
  | JObj m => Ret (JObj (<[k := x]> m))
  | JList _ => Raise (Exn TypeError "list indices must be integers or slices, not str")
  | _ => Raise (Exn TypeError
                  ("'" ++ type_name v ++ "' object does not support item assignment"))
  end.

Definition chars (s : string) : list json :=
  (fun a => JStr (String a EmptyString)) <$> list_ascii_of_string s.

(** The elements [for x in v] visits: the items of a list, the keys of a
    dict, the characters of a string. *)
Definition iterate (v : json) : Result (list json) :=
  match v with
  | JList l => Ret l
  | JObj m => Ret (JStr <$> (map_to_list m).*1)
  | JStr s => Ret (chars s)
  | _ => Raise (Exn TypeError
                  ("'" ++ type_name v ++ "' object is not iterable"))
  end.

(** [v.lower()]. *)
Definition str_lower (v : json) : Result string :=
  match v with
  | JStr s => Ret (lower s)
  | _ => Raise (Exn AttributeError
                  ("'" ++ type_name v ++ "' object has no attribute 'lower'"))
  end.

(** [v.get(k, default)]. *)
Definition dict_get (v : json) (k : string) (default : json) : Result json :=
  match v with
  | JObj m => Ret (match m !! k with Some x => x | None => default end)
  | _ => Raise (Exn AttributeError
                  ("'" ++ type_name v ++ "' object has no attribute 'get'"))
  end.

End Py.

(* ===================================================================== *)
(** ** file_utils.py                                                      *)
(* ===================================================================== *)

Module FileUtils.
Import Py.
Open Scope run_scope.

(** werkzeug's [FileStorage]: the claimed name, the underlying stream and
    the stream's read position. *)
Record FileStorage : Type := mkFile {
  filename : string;
  stream : bytes;
  pos : nat;
  content_type : string
}.

(** The file object once its stream has been read to the end. *)
Definition consumed (f : FileStorage) : FileStorage :=
  mkFile (filename f) (stream f) (List.length (stream f)) (content_type f).

(** [file.read()]: the bytes from the current position on; the position
    moves to the end. *)
Definition read : Run FileStorage bytes :=
  fun f => (Ret (drop (pos f) (stream f)), consumed f).

(** [file.seek(n)]. *)
Definition seek (n : nat) : Run FileStorage unit :=
  fun f => (Ret tt, mkFile (filename f) (stream f) n (content_type f)).

(** [bool(file)] is [bool(file.filename)]. *)
Definition file_truthy (f : FileStorage) : bool :=
  negb (String.eqb (filename f) EmptyString).

(** The libraries [allowed_file] calls. *)
Record Sniffers : Type := mkSniffers {
  (** [chardet.detect(blob)['encoding']]: a codec name, or [None] when the
      detector reaches no verdict. *)
  chardet_detect : bytes -> option string;
  (** [blob.decode(name)] for a codec name. *)
  codec_decode : bytes -> string -> Result string;
  (** [magic.from_buffer(blob, mime=True)]. *)
  magic_from_buffer : bytes -> string
}.

(** [blob.decode(encoding)]: the argument must be a [str] (the message is
    CPython's). *)
Definition bytes_decode (sn : Sniffers) (blob : bytes) (encoding : option string)
  : Result string :=
  match encoding with
  | Some name => codec_decode sn blob name
  | None => Raise (Exn TypeError "decode() argument 'encoding' must be str, not None")
  end.

Definition ALLOWED_MIME_TYPES : gset string := {[ "text/csv" ]}.

(** The tail of [allowed_file], from the comment [# For non-CSV files]. *)
Definition mime_check (sn : Sniffers) (file_blob : bytes) : bool :=
  let mime_type := magic_from_buffer sn file_blob in
  bool_decide (mime_type ∈ ALLOWED_MIME_TYPES).

Definition allowed_file (sn : Sniffers) : Run FileStorage bool :=
  file <- get ;;
  ext <- lift (index (rsplit1 "." (filename file)) 1) ;;
  let file_extension := lower ext in
  file_blob <- read ;;
  seek 0 ;;;
  accepted <-
    (if String.eqb file_extension "csv" then
       let detected_encoding := chardet_detect sn file_blob in
       try_except
         (_ <- lift (bytes_decode sn file_blob detected_encoding) ;; ret true)
         (fun e => if is_UnicodeDecodeError e then ret false else raise e)
     else ret false) ;;
  if (accepted : bool) then ret true
  else ret (mime_check sn file_blob).

(** The spec's reading of the sniffer on a [.csv] name: every way in which
    the decode attempt can fail leads to the MIME check. *)
Definition allowed_csv_spec (sn : Sniffers) (file_blob : bytes) : bool :=
  match bytes_decode sn file_blob (chardet_detect sn file_blob) with
  | Ret _ => true
  | Raise _ => mime_check sn file_blob
  end.

End FileUtils.

(* ===================================================================== *)
(** ** app.py: catalog filtering                                          *)
(* ===================================================================== *)

Module Catalog.
Import Py.
Open Scope result_scope.

(** [any(resource['format'].lower() in ['csv'] for resource in rs)]: the
    generator is consumed lazily, so the scan stops at the first hit. *)
Fixpoint any_csv (rs : list json) : Result bool :=
  match rs with
  | [] => Ret false
  | resource :: rest =>
      let* fmt := getitem resource "format" in
      let* low := str_lower fmt in
      if String.eqb low "csv" then Ret true else any_csv rest
  end.

(** The [if any(...)] test of the loop, for one package. *)
Definition has_csv_resource (package : json) : Result bool :=
  let* resources := getitem package "resources" in
  let* rs := iterate resources in
  any_csv rs.

(** The [for package in ...] loop building [filtered_results]. *)
Fixpoint filter_loop (packages : list json) : Result (list json) :=
  match packages with
  | [] => Ret []
  | package :: rest =>
      let* keep := has_csv_resource package in
      let* filtered_results := filter_loop rest in
      Ret (if (keep : bool) then package :: filtered_results else filtered_results)
  end.

(** [filter_resources(data)].  The assignment updates the dict stored under
    ['result'] in place; the returned [data] is the updated object. *)
Definition filter_resources (data : json) : Result json :=
  let* present := contains "result" data in
  if negb present then Ret data
  else
    let* result := getitem data "result" in
    let* results := getitem result "results" in
    let* packages := iterate results in
    let* filtered_results := filter_loop packages in
    let* result' := setitem result "results" (JList filtered_results) in
    setitem data "result" result'.

End Catalog.

(* ===================================================================== *)
(** ** app.py: the JSON encoder's [default] hook                          *)
(* ===================================================================== *)

Module JSONEncoder.
Import Py.
Open Scope result_scope.

(** The objects [default] can be handed, by the class its [isinstance]
    chain finds first.  A NumPy scalar carries what [np.isnan] says about
    it ([None] when [np.isnan] rejects its dtype) and its [item()]; the
    time values carry their [isoformat()]. *)
Inductive pyobj : Type :=
  | PNone
  | PBool (b : bool)
  | PInt (z : Z)
  | PStr (s : string)
  | PList (l : list pyobj)
  | PDict (items : list (string * pyobj))
  | PNaT
  | PNumpy (isnan : option bool) (item : pyobj)
  | PTimestamp (isoformat : string)
  | PDatetime (isoformat : string)
  | PDate (isoformat : string)
  | POther (class_name : string).

Definition class_name_of (obj : pyobj) : string :=
  match obj with
  | PNone => "NoneType"
  | PBool _ => "bool"
  | PInt _ => "int"
  | PStr _ => "str"
  | PList _ => "list"
  | PDict _ => "dict"
  | PNaT => "NaTType"
  | PNumpy _ _ => "generic"
  | PTimestamp _ => "Timestamp"
  | PDatetime _ => "datetime"
  | PDate _ => "date"
  | POther name => name
  end.

(** [json.JSONEncoder.default]: the base class refuses every object. *)
Definition base_default (obj : pyobj) : Result pyobj :=
  Raise (Exn TypeError
           ("Object of type " ++ class_name_of obj ++ " is not JSON serializable")).

(** [np.isnan(obj)] used as a condition. *)
Definition np_isnan (isnan : option bool) : Result bool :=
  match isnan with
  | Some b => Ret b
  | None =>
      Raise (Exn TypeError
               ("ufunc 'isnan' not supported for the input types, and the inputs "
                ++ "could not be safely coerced to any supported types according "
                ++ "to the casting rule ''safe''"))
  end.

(** [JSONEncoder.default(self, obj)]. *)
Fixpoint default (obj : pyobj) : Result pyobj :=
  match obj with
  | PNaT => Ret PNone
  | PNumpy isnan item =>
      let* nan := np_isnan isnan in
      if (nan : bool) then Ret PNone else Ret item
  | PTimestamp iso => Ret (PStr iso)
  | PDatetime iso => Ret (PStr iso)
  | PDate iso => Ret (PStr iso)
  | PDict items =>
      let* encoded :=
        (fix comprehension (kvs : list (string * pyobj)) : Result (list (string * pyobj)) :=
           match kvs with
           | [] => Ret []
           | (key, value) :: rest =>
               let* v := default value in
               let* tail := comprehension rest in
               Ret ((key, v) :: tail)
           end) items in
      Ret (PDict encoded)
  | _ => base_default obj
  end.

End JSONEncoder.

(* ===================================================================== *)
(** ** app.py: values passed through the encoder                          *)
(* ===================================================================== *)

(** [json.dumps(value, cls=JSONEncoder)], which is what [jsonify] runs once
    [app.json_encoder = JSONEncoder] is in force.  The base encoder writes
    [None], booleans, integers, floats, strings, lists and dicts itself,
    testing each class with [isinstance]; only for an object that passes
    none of these tests does it call [default], and it then writes whatever
    [default] returned, by the same rules. *)
Module JsonDumps.
Import Py JSONEncoder.
Open Scope result_scope.

(** A Python float, by what the encoder writes for it; [repr] is
    [float.__repr__] of a finite one. *)
Inductive pyfloat : Type :=
  | FNaN
  | FInfinity
  | FNegInfinity
  | FFinite (repr : string).

(** The values handed to the encoder.  [VFloat f numpy] is an instance of
    [float]: a plain one, or with [numpy] set a NumPy [float64], whose
    class derives from both [np.generic] and [float].  [VNumpy] is a NumPy
    scalar whose class derives from none of the classes the base encoder
    writes (an integer, a boolean, a [float32], ...), with what [np.isnan]
    says about it and its [item()]. *)
Inductive value : Type :=
  | VNone
  | VBool (b : bool)
  | VInt (z : Z)
  | VFloat (f : pyfloat) (numpy : bool)
  | VStr (s : string)
  | VList (items : list value)
  | VDict (members : list (string * value))
  | VNaT
  | VNumpy (isnan : option bool) (item : value)
  | VTimestamp (isoformat : string)
  | VDatetime (isoformat : string)
  | VDate (isoformat : string)
  | VOther (class_name : string).

Definition is_nan (f : pyfloat) : bool :=
  match f with FNaN => true | _ => false end.

(** The value as the [isinstance] chain of [default] classes it: a
    [float64] is an [np.generic] there, a plain float is of no listed
    class. *)
Fixpoint classify (v : value) : pyobj :=
  match v with
  | VNone => PNone
  | VBool b => PBool b
  | VInt z => PInt z
  | VFloat f numpy =>
      if numpy then PNumpy (Some (is_nan f)) (POther "float") else POther "float"
  | VStr s => PStr s
  | VList items => PList (List.map classify items)
  | VDict members => PDict (List.map (fun kv => (kv.1, classify kv.2)) members)
  | VNaT => PNaT
  | VNumpy isnan item => PNumpy isnan (classify item)
  | VTimestamp iso => PTimestamp iso
  | VDatetime iso => PDatetime iso
  | VDate iso => PDate iso
  | VOther name => POther name
  end.

(** The classes the base encoder writes itself. *)
Definition written_by_base (v : value) : bool :=
  match v with
  | VNone | VBool _ | VInt _ | VFloat _ _ | VStr _ | VList _ | VDict _ => true
  | _ => false
  end.

(** The output, token by token.  [TNaN], [TInfinity] and [TNegInfinity]
    are the bare words [NaN], [Infinity] and [-Infinity] that the encoder
    writes under its default [allow_nan=True]; JSON has no such tokens. *)
Inductive text : Type :=
  | TNull
  | TTrue
  | TFalse
  | TNumber (digits : string)
  | TNaN
  | TInfinity
  | TNegInfinity
  | TString (s : string)
  | TArray (items : list text)
  | TObject (members : list (string * text)).

(** [floatstr]: how the base encoder writes an instance of [float]. *)
Definition floatstr (f : pyfloat) : text :=
  match f with
  | FNaN => TNaN
  | FInfinity => TInfinity
  | FNegInfinity => TNegInfinity
  | FFinite repr => TNumber repr
  end.

(** [json.dumps(v, cls=JSONEncoder)].  The first seven cases are the base
    encoder's own; the others are [default] followed by the encoding of
    what it returned (see [dumps_through_default]). *)
Fixpoint dumps (v : value) : Result text :=
  match v with
  | VNone => Ret TNull
  | VBool b => Ret (if b then TTrue else TFalse)
  | VInt z => Ret (TNumber (pretty z))
  | VFloat f _ => Ret (floatstr f)
  | VStr s => Ret (TString s)
  | VList items =>
      let* written :=
        (fix each (l : list value) : Result (list text) :=
           match l with
           | [] => Ret []
           | item :: rest =>
               let* t := dumps item in
               let* ts := each rest in
               Ret (t :: ts)
           end) items in
      Ret (TArray written)
  | VDict members =>
      let* written :=
        (fix each (kvs : list (string * value)) : Result (list (string * text)) :=
           match kvs with
           | [] => Ret []
           | (key, item) :: rest =>
               let* t := dumps item in
               let* ts := each rest in
               Ret ((key, t) :: ts)
           end) members in
      Ret (TObject written)
  | VNaT => Ret TNull
  | VNumpy isnan item =>
      let* nan := np_isnan isnan in
      if (nan : bool) then Ret TNull else dumps item
  | VTimestamp iso => Ret (TString iso)
  | VDatetime iso => Ret (TString iso)
  | VDate iso => Ret (TString iso)
  | VOther name =>
      (* [default] ends in [super().default(obj)], which never returns *)
      let* returned := base_default (POther name) in Ret TNull
  end.

(** [np.float64('nan')], and [np.float32('nan')], which is no [float]. *)
Definition float64_nan : value := VFloat FNaN true.
Definition float32_nan : value := VNumpy (Some true) (VFloat FNaN false).

End JsonDumps.

(* ===================================================================== *)
(** ** app.py: the HTTP handlers                                          *)
(* ===================================================================== *)

Module App.
Import Py FileUtils.
Open Scope run_scope.

(** A call that reaches the store. *)
Inductive StoreCall : Type :=
  | CursorExecute (statement : string)
  | ExecuteQuery (sql : string).

Definition is_cursor_execute (c : StoreCall) : bool :=
  match c with CursorExecute _ => true | ExecuteQuery _ => false end.

(** What a handler returns to Flask: [(jsonify(body), status)]. *)
Record Response : Type := mkResponse { status : nat; body : json }.

(** [jsonify(body)] alone answers with status 200. *)
Definition jsonify (body : json) : Response := mkResponse 200 body.

Definition error_response (code : nat) (message : string) : Response :=
  mkResponse code (JObj {[ "error" := JStr message ]}).

(** What [requests.get] returns. *)
Record HttpResponse : Type := mkHttp {
  status_code : nat;
  content : bytes;
  header_content_type : option string;   (* [r.headers['content-type']] *)
  resp_json : Result json                (* [response.json()] *)
}.

(** The parts of the Flask request the handlers read. *)
Record Request : Type := mkRequest {
  files : gmap string FileStorage;       (* [request.files] *)
  get_json : Result json                 (* [request.get_json()], [request.json] *)
}.

(** [os.path.join(folder, name)]. *)
Definition path_join (folder name : string) : string :=
  if String.prefix "/" name then name
  else if String.eqb folder EmptyString then name
  else if String.eqb (String.substring (String.length folder - 1) 1 folder) "/"
       then folder ++ name
  else folder ++ "/" ++ name.

Section Handlers.

(** The state of the collaborators (store contents, network, completion
    service) and the opaque objects they hand out. *)
Context {Ext Conn Cursor QueryResults DataFrame : Type}.

(** A collaborator call: it may raise and may change [Ext]. *)
Definition Call (A : Type) : Type := Run Ext A.

Record Services : Type := mkServices {
  sniffers : Sniffers;
  (** werkzeug's [secure_filename] and [app.config['UPLOAD_FOLDER']]. *)
  secure_filename : string -> string;
  UPLOAD_FOLDER : string;
  (** [str(v)] inside an f-string, for a value that is not a [str]. *)
  str_of : json -> string;
  (** database.py *)
  get_db : Call Conn;
  conn_cursor : Conn -> Call Cursor;
  cursor_execute : Cursor -> string -> Call unit;
  cursor_fetchall : Cursor -> Call (list (list json));
  execute_query : string -> Call QueryResults;
  (** data_cleaning.py; it is given the path of the saved file and may
      touch the upload folder. *)
  clean_and_store_data :
    string -> FileStorage -> Conn ->
    Run (gmap string bytes * Ext) (option string * DataFrame);
  df_empty : DataFrame -> bool;
  (** [json.loads(sample_data.to_json(orient='records', date_format='iso',
      default_handler=h))]. *)
  df_to_json : DataFrame -> (JSONEncoder.pyobj -> Result JSONEncoder.pyobj) -> Result json;
  (** data_processing.py *)
  get_sql_query : json -> string -> string -> Call (option string);
  get_assistant_response : json -> string -> QueryResults -> Call string;
  generate_charts : QueryResults -> Call (option string);
  (** requests *)
  requests_get : json -> Call HttpResponse
}.

(** Everything a handler can change: the files on disk, the calls that
    reached the store, and the collaborators' own state. *)
Record World : Type := mkWorld {
  fs : gmap string bytes;
  store_calls : list StoreCall;
  ext : Ext
}.

Variable svc : Services.

Definition call {A} (c : Call A) : Run World A :=
  zoom ext (fun e w => mkWorld (fs w) (store_calls w) e) c.

Definition record_call (c : StoreCall) : Run World unit :=
  modify (fun w => mkWorld (fs w) (store_calls w ++ [c]) (ext w)).

(** [cursor.execute(statement)]. *)
Definition run_cursor_execute (cursor : Cursor) (statement : string) : Run World unit :=
  record_call (CursorExecute statement) ;;;
  call (cursor_execute svc cursor statement).

(** [execute_query(sql)]. *)
Definition run_execute_query (sql : string) : Run World QueryResults :=
  record_call (ExecuteQuery sql) ;;;
  call (execute_query svc sql).

(** [file.save(path)]: copies the stream, from its current position to its
    end, into the file at [path]; the file object is then [consumed]. *)
Definition save (file : FileStorage) (path : string) : Run World unit :=
  modify (fun w => mkWorld (<[path := drop (pos file) (stream file)]> (fs w))
                           (store_calls w) (ext w)).

(** [os.remove(path)]. *)
Definition os_remove (path : string) : Run World unit :=
  fun w => match fs w !! path with
           | Some _ => (Ret tt, mkWorld (delete path (fs w)) (store_calls w) (ext w))
           | None => (Raise (Exn FileNotFoundError
                              ("[Errno 2] No such file or directory: '" ++ path ++ "'")), w)
           end.

Definition run_clean_and_store_data (path : string) (file : FileStorage) (conn : Conn)
  : Run World (option string * DataFrame) :=
  fun w => let (r, st) := clean_and_store_data svc path file conn (fs w, ext w) in
           (r, mkWorld (fst st) (store_calls w) (snd st)).

(** [file and allowed_file(file)]: the sniffer runs on the file object and
    leaves its read position changed; a falsy [file] is not sniffed. *)
Definition file_and_allowed (file : FileStorage) : Run World (bool * FileStorage) :=
  if file_truthy file then
    match allowed_file (sniffers svc) file with
    | (Ret ok, file') => ret (ok, file')
    | (Raise e, _) => raise e
    end
  else ret (false, file).

(** An f-string field [{v}]. *)
Definition format_value (v : json) : string :=
  match v with
  | JStr s => s
  | _ => str_of svc v
  end.

(** The tail shared by both upload handlers, from
    [if upload_id is not None and not sample_data.empty]. *)
Definition upload_result (upload_id : option string) (sample_data : DataFrame)
  : Run World Response :=
  match upload_id with
  | Some id =>
      if negb (df_empty svc sample_data) then
        sample <- lift (df_to_json svc sample_data JSONEncoder.default) ;;
        ret (mkResponse 200 (JObj {[ "upload_id" := JStr id; "sample_data" := sample ]}))
      else ret (error_response 400 "Error processing file")
  | None => ret (error_response 400 "Error processing file")
  end.

(** [POST /upload]. *)
Definition upload_file (request : Request) : Run World Response :=
  try_except
    (match files request !! "file" with
     | None => ret (error_response 400 "No file part in the request")
     | Some file =>
         if String.eqb (filename file) EmptyString then
           ret (error_response 400 "No selected file")
         else
           checked <- file_and_allowed file ;;
           let '(ok, file) := checked in
           if (ok : bool) then
             let name := secure_filename svc (filename file) in
             let file_path := path_join (UPLOAD_FOLDER svc) name in
             outcome <-
               try_finally
                 (try_except
                    (save file file_path ;;;
                     conn <- call (get_db svc) ;;
                     stored <- run_clean_and_store_data file_path (consumed file) conn ;;
                     ret (inr stored))
                    (fun e => ret (inl (error_response 500
                                          ("Error saving file: " ++ exn_str e)))))
                 (os_remove file_path) ;;
             match outcome with
             | inl early => ret early
             | inr (upload_id, sample_data) => upload_result upload_id sample_data
             end
           else ret (error_response 400 "Unsupported file type")
     end)
    (fun e => ret (error_response 500 ("Unhandled exception: " ++ exn_str e))).

(** [url.split("/")[-1]]. *)
Definition last_segment (url : json) : Result string :=
  match url with
  | JStr u => index_last (split "/" u)
  | _ => Raise (Exn AttributeError
                  ("'" ++ type_name url ++ "' object has no attribute 'split'"))
  end.

(** [POST /upload_from_url]. *)
Definition upload_from_url (request : Request) : Run World Response :=
  try_except
    (payload <- lift (get_json request) ;;
     url <- lift (dict_get payload "url" (JStr EmptyString)) ;;
     r <- call (requests_get svc url) ;;
     if negb (Nat.eqb (status_code r) 200) then
       ret (error_response 500 ("Error downloading file from " ++ format_value url))
     else
       name <- lift (last_segment url) ;;
       ctype <- lift (match header_content_type r with
                      | Some c => Ret c
                      | None => Raise (Exn KeyError "'content-type'")
                      end) ;;
       let file := mkFile name (content r) 0 ctype in
       checked <- file_and_allowed file ;;
       let '(ok, file) := checked in
       if (ok : bool) then
         let name := secure_filename svc (filename file) in
         let file_path := path_join (UPLOAD_FOLDER svc) name in
         save file file_path ;;;
         conn <- call (get_db svc) ;;
         stored <- run_clean_and_store_data file_path (consumed file) conn ;;
         let '(upload_id, sample_data) := stored in
         upload_result upload_id sample_data
       else ret (error_response 400 "Unsupported file type"))
    (fun e => ret (error_response 500 ("Unhandled exception: " ++ exn_str e))).

(** The argument check of [str.join]: every item must be a [str]. *)
Fixpoint join_items (i : nat) (items : list json) : Result (list string) :=
  match items with
  | [] => Ret []
  | JStr s :: rest => rbind (join_items (S i) rest) (fun names => Ret (s :: names))
  | v :: _ => Raise (Exn TypeError
                       ("sequence item " ++ pretty i ++ ": expected str instance, "
                        ++ type_name v ++ " found"))
  end.

(** [', '.join([column[0] for column in columns])]. *)
Definition join_column_names (columns : list (list json)) : Result string :=
  rbind (rmap (fun column => index column 0) columns) (fun firsts =>
  rbind (join_items 0 firsts) (fun names =>
  Ret (join ", " names))).

(** Truth value of an optional string ([None] or a [str]). *)
Definition nonempty (s : option string) : bool :=
  match s with
  | Some t => negb (String.eqb t EmptyString)
  | None => false
  end.

(** The string behind a truthy optional string. *)
Definition text_of (s : option string) : string :=
  match s with
  | Some t => t
  | None => EmptyString
  end.

Definition message (role text : string) : json :=
  JObj {[ "role" := JStr role; "content" := JStr text ]}.

(** The block under [# Get column names from the database], from
    [get_db().cursor()] to [column_names]. *)
Definition lookup_columns (upload_id : string) : Run World string :=
  conn <- call (get_db svc) ;;
  cursor <- call (conn_cursor svc conn) ;;
  run_cursor_execute cursor ("DESCRIBE " ++ upload_id ++ ";") ;;;
  columns <- call (cursor_fetchall svc cursor) ;;
  lift (join_column_names columns).

(** [POST /analyze_data/<upload_id>]. *)
Definition analyze_data_endpoint (upload_id : string) (request : Request)
  : Run World Response :=
  try_except
    (payload <- lift (get_json request) ;;
     user_query <- lift (dict_get payload "query" JNull) ;;
     if negb (truthy user_query) then
       ret (error_response 400 "No query provided")
     else
       column_names <- lookup_columns upload_id ;;
       cleaned_sql_query <- call (get_sql_query svc user_query column_names upload_id) ;;
       if nonempty cleaned_sql_query then
         let sql := text_of cleaned_sql_query in
         query_results <- run_execute_query sql ;;
         assistant_response <- call (get_assistant_response svc user_query sql query_results) ;;
         let messages := [message "assistant" assistant_response] in
         chart_string <- call (generate_charts svc query_results) ;;
         let messages :=
           if nonempty chart_string
           then (messages ++ [message "chart" (text_of chart_string)])%list
           else messages in
         ret (jsonify (JObj {[ "messages" := JList messages ]}))
       else
         let messages :=
           [message "assistant"
              ("Could not generate an SQL query from the user's question: "
               ++ format_value user_query)] in
         ret (jsonify (JObj {[ "messages" := JList messages ]})))
    (fun e => ret (error_response 500 ("Error analyzing data: " ++ exn_str e))).

(** [POST /search]. *)
Definition search (request : Request) : Run World Response :=
  try_except
    (payload <- lift (get_json request) ;;
     query <- lift (dict_get payload "query" JNull) ;;
     if negb (truthy query) then
       ret (error_response 400 "No query provided")
     else
       let url := "https://data.humdata.org/api/3/action/package_search?q="
                  ++ format_value query in
       response <- call (requests_get svc (JStr url)) ;;
       data <- lift (resp_json response) ;;
       filtered_data <- lift (Catalog.filter_resources data) ;;
       ret (mkResponse 200 filtered_data))
    (fun e => ret (error_response 500 ("Error in search: " ++ exn_str e))).

End Handlers.
Arguments Services : clear implicits.
Arguments World : clear implicits.

End App.

(* ===================================================================== *)
(** ** Vocabulary of the properties                                       *)
(* ===================================================================== *)

Module Props.
Import Py FileUtils App.

(** The file object after [allowed_file]: same name and bytes, read
    position back at the start. *)
Definition rewind (f : FileStorage) : FileStorage :=
  mkFile (filename f) (stream f) 0 (content_type f).

(** What [file.read()] delivers. *)
Definition unread (f : FileStorage) : bytes := drop (pos f) (stream f).

(** A resource that declares a textual format. *)
Definition declared_format (resource : json) : option string :=
  match resource with
  | JObj r => match r !! "format" with Some (JStr fmt) => Some fmt | _ => None end
  | _ => None
  end.

(** The resource list of a package. *)
Definition resources_of (package : json) : option (list json) :=
  match package with
  | JObj p => match p !! "resources" with Some (JList rs) => Some rs | _ => None end
  | _ => None
  end.

(** A package as the catalog documents it: a resource list in which every
    resource declares a format. *)
Definition well_formed_package (package : json) : Prop :=
  exists rs, resources_of package = Some rs
             /\ Forall (fun r => is_Some (declared_format r)) rs.


Definition is_csv_resource (resource : json) : bool :=
  match declared_format resource with
  | Some fmt => String.eqb (lower fmt) "csv"
  | None => false
  end.

Definition offers_csvb (package : json) : bool :=
  match resources_of package with
  | Some rs => existsb is_csv_resource rs
  | None => false
  end.

(** An item of the dict comprehension in [JSONEncoder.default]. *)
Definition encode_item (kv : string * JSONEncoder.pyobj)
  : Result (string * JSONEncoder.pyobj) :=
  rbind (JSONEncoder.default kv.2) (fun v => Ret (kv.1, v)).

(** The response of [/analyze_data] that carries the given messages. *)
Definition messages_response (messages : list json) : Response :=
  mkResponse 200 (JObj {[ "messages" := JList messages ]}).

Section Handlers.
Context {Ext Conn Cursor QueryResults DataFrame : Type}.
Variable svc : Services Ext Conn Cursor QueryResults DataFrame.

(** A computation is quiet when it sends no statement through the cursor:
    whatever it adds to the record of store calls is not a
    [CursorExecute]. *)
Definition quiet {A} (c : Run (World Ext) A) : Prop :=
  forall w, exists later,
    store_calls (snd (c w)) = (store_calls w ++ later)%list
    /\ List.filter is_cursor_execute later = [].

(** Run from [w], the computation sends [statement] through the cursor,
    first of all its store calls, and no other statement after it. *)
Definition sends_only {A} (statement : string) (c : Run (World Ext) A) (w : World Ext) : Prop :=
  exists later,
    store_calls (snd (c w)) = (store_calls w ++ CursorExecute statement :: later)%list
    /\ List.filter is_cursor_execute later = [].

(** The URL [search] requests. *)
Definition upstream_url (query : json) : json :=
  JStr ("https://data.humdata.org/api/3/action/package_search?q="
        ++ format_value svc query).

(** Where an accepted upload is saved. *)
Definition saved_path (file : FileStorage) : string :=
  path_join (UPLOAD_FOLDER svc) (secure_filename svc (filename file)).

End Handlers.

End Props.

(* ===================================================================== *)
(** ** A concrete deployment, for evaluating the handlers                 *)
(* ===================================================================== *)

Module Demo.
Import Py FileUtils App.
Open Scope run_scope.

(** The ['ascii'] codec. *)
Definition ascii_decode (blob : bytes) : Result string :=
  if forallb (fun b => (Byte.to_N b <? 128)%N) blob
  then Ret (string_of_list_byte blob)
  else Raise (Exn UnicodeDecodeError "'ascii' codec can't decode byte: ordinal not in range(128)").

(** chardet has no verdict on an empty buffer; libmagic calls it
    [application/x-empty]. *)
Definition demo_sniffers : Sniffers := {|
  chardet_detect blob := match blob with [] => None | _ => Some "ascii" end;
  codec_decode blob name :=
    if String.eqb name "ascii" then ascii_decode blob
    else Raise (Exn LookupError ("unknown encoding: " ++ name));
  magic_from_buffer blob :=
    match blob with [] => "application/x-empty" | _ => "text/plain" end
|}.

(** Collaborators without state of their own: the store knows one table
    with columns [name] and [amount]; ingestion leaves the upload folder
    as it finds it; the completion service and the chart generator answer
    as given; the network answers every request with [upstream]. *)
Definition demo_services (sql : option string) (chart : Call (Ext := unit) (option string))
    (upstream : HttpResponse) : Services unit unit unit (list json) (list json) := {|
  sniffers := demo_sniffers;
  secure_filename name := name;
  UPLOAD_FOLDER := "/tmp/uploads";
  str_of v := match v with
              | JNull => "None"
              | JBool true => "True"
              | JBool false => "False"
              | JInt z => pretty z
              | _ => "<" ++ type_name v ++ ">"   (* containers: not rendered *)
              end;
  get_db := ret tt;
  conn_cursor _ := ret tt;
  cursor_execute _ _ := ret tt;
  cursor_fetchall _ := ret [[JStr "name"; JStr "text"]; [JStr "amount"; JStr "int"]];
  execute_query _ := ret [JInt 30];
  clean_and_store_data _ _ _ :=
    ret (Some "data_csv", [JObj {[ "name" := JStr "A"; "amount" := JInt 10 ]}]);
  df_empty df := match df with [] => true | _ => false end;
  df_to_json df _ := Ret (JList df);
  get_sql_query _ _ _ := ret sql;
  get_assistant_response _ _ _ := ret "The total amount is 30.";
  generate_charts _ := chart;
  requests_get _ := ret upstream
|}.

Definition csv_blob : bytes :=
  list_byte_of_string "name,amount" ++ [Byte.x0a]
  ++ list_byte_of_string "A,10" ++ [Byte.x0a].

Definition empty_world : World unit := mkWorld ∅ [] tt.

Definition json_request (payload : json) : Request := mkRequest ∅ (Ret payload).

Definition file_request (file : FileStorage) : Request :=
  mkRequest {[ "file" := file ]} (Raise (Exn (OtherException "UnsupportedMediaType")
                                            "415 Unsupported Media Type")).

Definition question : Request :=
  json_request (JObj {[ "query" := JStr "what is the total amount?" ]}).

Definition no_chart : Call (Ext := unit) (option string) := ret None.

Definition chart_failure : Call (Ext := unit) (option string) :=
  raise (Exn (OtherException "ValueError") "no numeric data to plot").

Definition csv_download : HttpResponse :=
  mkHttp 200 csv_blob (Some "text/csv")
    (Raise (Exn (OtherException "JSONDecodeError") "Expecting value: line 1 column 1 (char 0)")).

(** A catalog error: HTTP 503 with a JSON body that has no ['result']. *)
Definition catalog_unavailable_body : json :=
  JObj {[ "success" := JBool false; "error" := JStr "Service Unavailable" ]}.

Definition catalog_unavailable : HttpResponse :=
  mkHttp 503 [] (Some "application/json") (Ret catalog_unavailable_body).

(** The store after the column lookup of the [sales] table. *)
Definition described : World unit :=
  mkWorld ∅ [CursorExecute "DESCRIBE sales;"] tt.

(** A catalog answer with three packages: one offers a CSV (declared as
    ["CSV"]), one offers only a spreadsheet, one has no resources. *)
Definition population_csv : json :=
  JObj {[ "name" := JStr "population-csv";
          "resources" := JList [JObj {[ "format" := JStr "XLSX" ]};
                                JObj {[ "format" := JStr "CSV" ]}] ]}.

Definition population_xlsx : json :=
  JObj {[ "name" := JStr "population-xlsx";
          "resources" := JList [JObj {[ "format" := JStr "XLSX" ]}] ]}.

Definition population_empty : json :=
  JObj {[ "name" := JStr "population-empty"; "resources" := JList [] ]}.

Definition catalog_result : gmap string json :=
  {[ "count" := JInt 3;
     "results" := JList [population_xlsx; population_csv; population_empty] ]}.

Definition catalog_answer : gmap string json :=
  {[ "success" := JBool true; "result" := JObj catalog_result ]}.

End Demo.

(* ===================================================================== *)
(** ** query_processing.py                                                *)
(* ===================================================================== *)

Module QueryProcessing.
Import Py.
Open Scope run_scope.

(** What the module takes from NLTK and from [str]: the tokenizer, the
    English stop-word list, and [word.lower()] on arbitrary text (full
    Unicode lowercasing, which [Py.lower] covers on ASCII letters only). *)
Record Nlp : Type := mkNlp {
  word_tokenize : string -> list string;
  stopwords_english : list string;
  str_lower : string -> string
}.

(** [process_user_input(user_question)]: the stop words are put in a set;
    the comprehension keeps the tokens whose lowercase is not in it. *)
Definition process_user_input (nlp : Nlp) (user_question : string) : list string :=
  let tokens := word_tokenize nlp user_question in
  let stop_words : gset string := list_to_set (stopwords_english nlp) in
  List.filter (fun word => bool_decide (str_lower nlp word ∉ stop_words)) tokens.

(** The prompt of [check_query_relevance]. *)
Definition relevance_prompt (user_query dataset_context : string) : string :=
  "How relevant is the question '" ++ user_query
  ++ "' to the dataset context '" ++ dataset_context ++ "'?".

(** The names bound at module level: the four imports and the two
    functions. *)
Definition module_names : list string :=
  ["nltk"; "stopwords"; "word_tokenize"; "openai";
   "process_user_input"; "check_query_relevance"].

(** Looking up a global that is no builtin. *)
Definition load_global (name : string) : Result unit :=
  if bool_decide (name ∈ module_names) then Ret tt
  else Raise (Exn (OtherException "NameError") ("name '" ++ name ++ "' is not defined")).

Section Completion.
Context {Ext Completion Score : Type}.

(** [openai.Completion.create(engine=..., prompt=..., max_tokens=...)]. *)
Variable completion_create : string -> string -> nat -> Run Ext Completion.

(** What [extract_numerical_value(response.choices[0].text)] would compute,
    were the name bound. *)
Variable extract_from : Completion -> Result Score.

(** [check_query_relevance(user_query, dataset_context)].  The call
    expression first loads the global [extract_numerical_value], then
    evaluates its argument. *)
Definition check_query_relevance (user_query dataset_context : string) : Run Ext Score :=
  let prompt := relevance_prompt user_query dataset_context in
  response <- completion_create "text-davinci-003" prompt 50 ;;
  lift (load_global "extract_numerical_value") ;;;
  relevance_score <- lift (extract_from response) ;;
  ret relevance_score.

End Completion.

End QueryProcessing.

(* ===================================================================== *)
(** ** Further vocabulary                                                 *)
(* ===================================================================== *)

Module Vocabulary.
Import Py FileUtils App.

(** The decode probe that [allowed_file] makes on a [.csv] name
    succeeds. *)
Definition csv_decodes (sn : Sniffers) (ext : string) (blob : bytes) : bool :=
  String.eqb (lower ext) "csv"
  && negb (raised (bytes_decode sn blob (chardet_detect sn blob))).

(** The text after the last [c], or all of [s] when [c] does not occur. *)
Definition after_last (c : ascii) (s : string) : string :=
  match rsplit_last c s with
  | Some (_, suf) => suf
  | None => s
  end.

(** The response carries one of the given status codes. *)
Definition status_in (codes : list nat) (r : Response) : Prop := In (status r) codes.

Section Handlers.
Context {Ext : Type}.

(** Whenever the computation returns, its result satisfies [P]. *)
Definition yields {A} (P : A -> Prop) (c : Run (World Ext) A) : Prop :=
  forall w, match fst (c w) with Ret a => P a | Raise _ => True end.

(** The computation leaves the component [proj] of the world as it found
    it, whether it returns or raises. *)
Definition keeps {A B} (proj : World Ext -> B) (c : Run (World Ext) A) : Prop :=
  forall w, proj (snd (c w)) = proj w.

End Handlers.

End Vocabulary.

(* ===================================================================== *)
(** ** Further deployments and inputs                                     *)
(* ===================================================================== *)

Module Cases.
Import Py FileUtils App Demo.
Open Scope run_scope.

(** How [clean_and_store_data] can end. *)
Definition Ingestion : Type :=
  string -> FileStorage -> unit ->
  Run (gmap string bytes * unit) (option string * list json).

Definition sample_row : json := JObj {[ "name" := JStr "A"; "amount" := JInt 10 ]}.

(** Ingestion stores the table and leaves the saved file alone. *)
Definition ingest_ok : Ingestion := fun _ _ _ => ret (Some "data_csv", [sample_row]).

(** Ingestion stores the table and deletes the file it was given. *)
Definition ingest_and_unlink : Ingestion :=
  fun path _ _ st => (Ret (Some "data_csv", [sample_row]), (delete path st.1, st.2)).

(** Ingestion fails on the content. *)
Definition ingest_fails : Ingestion :=
  fun _ _ _ => raise (Exn (OtherException "ParserError") "Error tokenizing data").

(** Ingestion finds no rows. *)
Definition ingest_nothing : Ingestion := fun _ _ _ => ret (None, []).

(** The demo deployment with the given ingestion, the given outcome of
    [cursor.execute] and the given outcome of [execute_query]; the
    completion service proposes [sql]. *)
Definition services_with (ingest : Ingestion) (describe : Call (Ext := unit) unit)
    (answer : Call (Ext := unit) (list json)) (sql : option string)
    (upstream : HttpResponse) : Services unit unit unit (list json) (list json) :=
  let base := demo_services sql no_chart upstream in {|
  sniffers := sniffers base;
  secure_filename := secure_filename base;
  UPLOAD_FOLDER := UPLOAD_FOLDER base;
  str_of := str_of base;
  get_db := get_db base;
  conn_cursor := conn_cursor base;
  cursor_execute _ _ := describe;
  cursor_fetchall := cursor_fetchall base;
  execute_query _ := answer;
  clean_and_store_data := ingest;
  df_empty := df_empty base;
  df_to_json := df_to_json base;
  get_sql_query := get_sql_query base;
  get_assistant_response := get_assistant_response base;
  generate_charts := generate_charts base;
  requests_get := requests_get base
|}.

Definition total_sql : string := "SELECT SUM(amount) FROM sales".

Definition uploads (ingest : Ingestion) : Services unit unit unit (list json) (list json) :=
  services_with ingest (ret tt) (ret [JInt 30]) None csv_download.

Definition no_such_table : exn :=
  Exn (OtherException "CatalogException") "Table with name sales does not exist!".

Definition no_such_column : exn :=
  Exn (OtherException "BinderException") "Referenced column amount not found".

(** An upload that passes the sniffer, read halfway by an earlier
    consumer. *)
Definition csv_file : FileStorage := mkFile "data.csv" csv_blob 0 "text/csv".
Definition csv_file_half_read : FileStorage := mkFile "data.csv" csv_blob 5 "text/csv".

(** An upload the sniffer turns down: text that is no CSV by name, and
    libmagic calls it [text/plain]. *)
Definition notes_file : FileStorage :=
  mkFile "notes.txt" (list_byte_of_string "hello") 0 "text/plain".

Definition upload_folder_with (content : bytes) : gmap string bytes :=
  {[ "/tmp/uploads/data.csv" := content ]}.

Definition url_request (url : string) : Request :=
  json_request (JObj {[ "url" := JStr url ]}).

Definition not_found : HttpResponse :=
  mkHttp 404 (list_byte_of_string "Not Found") (Some "text/html")
    (Raise (Exn (OtherException "JSONDecodeError") "Expecting value: line 1 column 1 (char 0)")).

Definition csv_without_content_type : HttpResponse :=
  mkHttp 200 csv_blob None
    (Raise (Exn (OtherException "JSONDecodeError") "Expecting value: line 1 column 1 (char 0)")).

(** A package that has no resource list, between two that have one. *)
Definition population_bare : json := JObj {[ "name" := JStr "population-bare" ]}.

Definition broken_result : gmap string json :=
  {[ "count" := JInt 3;
     "results" := JList [population_csv; population_bare; population_xlsx] ]}.

Definition broken_answer : gmap string json :=
  {[ "success" := JBool true; "result" := JObj broken_result ]}.


(** The catalog answer of the demo after filtering. *)
Definition filtered_answer : json :=
  JObj (<["result" := JObj (<["results" := JList [population_csv]]> catalog_result)]>
          catalog_answer).

(** The demo question as JSON, and the store once the synthesized
    statement ran. *)
Definition asked : json := JObj {[ "query" := JStr "what is the total amount?" ]}.

Definition executed : World unit :=
  mkWorld ∅ [CursorExecute "DESCRIBE sales;"; ExecuteQuery total_sql] tt.

(** Where the demo deployment saves [data.csv]. *)
Definition saved : string := "/tmp/uploads/data.csv".

End Cases.

(* ===================================================================== *)
(** ** The sniffer                                                        *)
(* ===================================================================== *)

Module Sniffing.
Import Py FileUtils App Props.

Lemma rsplit_last_None c s :
  rsplit_last c s = None <-> contains_char c s = false.
Proof.
  induction s as [|a s IH]; simpl; [done|].
  destruct (rsplit_last c s) as [[pre suf]|].
  - split; [done|]. intros H. apply orb_false_elim in H as [_ H].
    apply IH in H. done.
  - destruct (Ascii.eqb a c); simpl; [done|]. tauto.
Qed.

Lemma rsplit_last_app c stem ext :
  contains_char c ext = false ->
  rsplit_last c (stem ++ String c ext) = Some (stem, ext).
Proof.
  intros Hext. apply rsplit_last_None in Hext.
  induction stem as [|a stem IH]; simpl.
  - rewrite Hext, Ascii.eqb_refl. done.
  - rewrite IH. done.
Qed.

(** [name.rsplit('.', 1)[1]] is the text after the last dot. *)
Lemma extension_found stem ext :
  contains_char "." ext = false ->
  index (rsplit1 "." (stem ++ String "." ext)) 1 = Ret ext.
Proof.
  intros H. unfold rsplit1. rewrite rsplit_last_app by done. done.
Qed.

(** Without a dot the list has one element and [[1]] is out of range. *)
Lemma extension_missing name :
  contains_char "." name = false ->
  index (rsplit1 "." name) 1 = Raise (Exn IndexError "list index out of range").
Proof.
  intros H. apply rsplit_last_None in H. unfold rsplit1. rewrite H. done.
Qed.

Ltac run_sniffer :=
  unfold allowed_file, bind, get, lift, read, seek, try_except, ret, raise,
    rewind, unread in *;
  simpl.

(** A [.csv] name whose content decodes under the detected encoding is
    accepted, and the stream is rewound. *)
Lemma allowed_file_csv_decoded sn file stem ext text :
  filename file = stem ++ String "." ext ->
  contains_char "." ext = false ->
  lower ext = "csv" ->
  bytes_decode sn (unread file) (chardet_detect sn (unread file)) = Ret text ->
  allowed_file sn file = (Ret true, rewind file).
Proof.
  intros Hname Hext Hcsv Hdec. run_sniffer.
  rewrite Hname, extension_found by done. rewrite Hcsv. simpl.
  rewrite Hdec. done.
Qed.

(** A [.csv] name whose decoding raises [UnicodeDecodeError] is judged by
    its sniffed MIME type. *)
Lemma allowed_file_csv_undecodable sn file stem ext e :
  filename file = stem ++ String "." ext ->
  contains_char "." ext = false ->
  lower ext = "csv" ->
  bytes_decode sn (unread file) (chardet_detect sn (unread file)) = Raise e ->
  exn_cls e = UnicodeDecodeError ->
  allowed_file sn file = (Ret (mime_check sn (unread file)), rewind file).
Proof.
  intros Hname Hext Hcsv Hdec Hcls. run_sniffer.
  rewrite Hname, extension_found by done. rewrite Hcsv. simpl.
  rewrite Hdec. unfold is_UnicodeDecodeError. rewrite Hcls.
  simpl. by destruct (mime_check _ _).
Qed.

(** Any other extension is judged by the sniffed MIME type alone. *)
Lemma allowed_file_other_extension sn file stem ext :
  filename file = stem ++ String "." ext ->
  contains_char "." ext = false ->
  lower ext <> "csv" ->
  allowed_file sn file = (Ret (mime_check sn (unread file)), rewind file).
Proof.
  intros Hname Hext Hcsv. run_sniffer.
  rewrite Hname, extension_found by done.
  apply String.eqb_neq in Hcsv. rewrite Hcsv. simpl.
  by destruct (mime_check _ _).
Qed.

(** The MIME check accepts [text/csv] and nothing else. *)
Lemma mime_check_true sn blob :
  mime_check sn blob = true <-> magic_from_buffer sn blob = "text/csv".
Proof.
  unfold mime_check, ALLOWED_MIME_TYPES. rewrite bool_decide_eq_true.
  apply elem_of_singleton.
Qed.

(** A decode attempt that raises anything but [UnicodeDecodeError] (no
    detected encoding, an unknown codec name) leaves [allowed_file] by that
    exception: the MIME check is not reached. *)
Lemma allowed_file_csv_decode_escapes sn file stem ext e :
  filename file = stem ++ String "." ext ->
  contains_char "." ext = false ->
  lower ext = "csv" ->
  bytes_decode sn (unread file) (chardet_detect sn (unread file)) = Raise e ->
  exn_cls e <> UnicodeDecodeError ->
  allowed_file sn file = (Raise e, rewind file).
Proof.
  intros Hname Hext Hcsv Hdec Hcls. run_sniffer.
  rewrite Hname, extension_found by done. rewrite Hcsv. simpl.
  rewrite Hdec. unfold is_UnicodeDecodeError.
  destruct (exn_cls e); done.
Qed.

(** A name without a dot makes [allowed_file] raise [IndexError] before it
    reads the stream. *)
Lemma allowed_file_no_extension sn file :
  contains_char "." (filename file) = false ->
  allowed_file sn file = (Raise (Exn IndexError "list index out of range"), file).
Proof.
  intros H. run_sniffer. rewrite extension_missing by done. done.
Qed.

End Sniffing.

(* ===================================================================== *)
(** ** The catalog filter                                                 *)
(* ===================================================================== *)

Module Filtering.
Import Py App Catalog Props.

Lemma declared_format_lower resource fmt :
  declared_format resource = Some fmt ->
  rbind (getitem resource "format") str_lower = Ret (lower fmt).
Proof.
  unfold declared_format. destruct resource as [| | | | |r]; try done.
  simpl. destruct (r !! "format") as [[| | |s| |]|]; try done.
  by intros [= ->].
Qed.

(** On resources that all declare a format the lazy scan is [existsb]. *)
Lemma any_csv_declared rs :
  Forall (fun r => is_Some (declared_format r)) rs ->
  any_csv rs = Ret (existsb is_csv_resource rs).
Proof.
  induction 1 as [|r rs [fmt Hfmt] _ IH]; [done|].
  simpl. pose proof (declared_format_lower _ _ Hfmt) as Hlow.
  unfold rbind in Hlow |- *. unfold is_csv_resource at 1. rewrite Hfmt.
  destruct (getitem r "format") as [v|]; [|done].
  rewrite Hlow. destruct (String.eqb (lower fmt) "csv"); [done|].
  by rewrite IH.
Qed.

Lemma has_csv_resource_well_formed package :
  well_formed_package package ->
  has_csv_resource package = Ret (offers_csvb package).
Proof.
  intros (rs & Hrs & Hall). unfold has_csv_resource, offers_csvb.
  rewrite Hrs. unfold resources_of in Hrs.
  destruct package as [| | | | |p]; try done. simpl.
  destruct (p !! "resources") as [[| | | |l|]|]; try done.
  injection Hrs as ->. simpl. by apply any_csv_declared.
Qed.

(** On well-formed packages the loop is a filter. *)
Lemma filter_loop_well_formed packages :
  Forall well_formed_package packages ->
  filter_loop packages = Ret (List.filter offers_csvb packages).
Proof.
  induction 1 as [|p ps Hp _ IH]; [done|].
  simpl. rewrite (has_csv_resource_well_formed _ Hp), IH. simpl.
  by destruct (offers_csvb p).
Qed.


Lemma filter_sublist {A} (f : A -> bool) (l : list A) :
  sublist (List.filter f l) l.
Proof.
  induction l as [|x l IH]; simpl; [constructor|].
  destruct (f x); by constructor.
Qed.






(** A mapping without ['result'] comes back as it went in. *)
Lemma filter_resources_no_result (d : gmap string json) :
  d !! "result" = None -> filter_resources (JObj d) = Ret (JObj d).
Proof. intros H. unfold filter_resources. simpl. by rewrite H. Qed.

End Filtering.

(* ===================================================================== *)
(** ** The JSON encoder                                                   *)
(* ===================================================================== *)

Module Encoding.
Import Py JSONEncoder JsonDumps Props.

(** The dict branch is the comprehension over the items. *)
Lemma default_dict items :
  default (PDict items)
  = rbind (rmap encode_item items) (fun encoded => Ret (PDict encoded)).
Proof.
  simpl. f_equal.
  induction items as [|[key value] rest IH]; [done|].
  simpl. unfold encode_item at 1. simpl.
  destruct (default value) as [v|e]; simpl; [|done].
  rewrite IH. done.
Qed.

(** The method [default] by itself, class by class: not-a-time gives
    [None], a NumPy scalar gives [None] when [np.isnan] holds of it and its
    [item()] when it does not, Timestamp, datetime and date values give
    their ISO-8601 string; on a dict the method applies itself to each of
    the values in turn; every other object goes to the base class, which
    refuses it. *)
Lemma default_characterised :
  default PNaT = Ret PNone
  /\ (forall item, default (PNumpy (Some true) item) = Ret PNone)
  /\ (forall item, default (PNumpy (Some false) item) = Ret item)
  /\ (forall iso, default (PTimestamp iso) = Ret (PStr iso))
  /\ (forall iso, default (PDatetime iso) = Ret (PStr iso))
  /\ (forall iso, default (PDate iso) = Ret (PStr iso))
  /\ (forall items,
        default (PDict items)
        = rbind (rmap encode_item items) (fun encoded => Ret (PDict encoded)))
  /\ default PNone = base_default PNone
  /\ (forall b, default (PBool b) = base_default (PBool b))
  /\ (forall z, default (PInt z) = base_default (PInt z))
  /\ (forall s, default (PStr s) = base_default (PStr s))
  /\ (forall l, default (PList l) = base_default (PList l))
  /\ (forall name, default (POther name) = base_default (POther name)).
Proof. repeat split. apply default_dict. Qed.

(** Called on a dict whose values are not all of the listed kinds, the
    method raises. *)
Example default_dict_with_int :
  raised (default (PDict [("n", PInt 1)])) = true.
Proof. reflexivity. Qed.

(** A value the base encoder does not write itself is written as what
    [default] returns for it: the exception of [default] is that of
    [dumps], and an object it returns is encoded in its turn. *)
Lemma dumps_through_default (v : value) :
  written_by_base v = false ->
  match default (classify v) with
  | Raise e => dumps v = Raise e
  | Ret o => exists returned, classify returned = o /\ dumps v = dumps returned
  end.
Proof.
  destruct v as [| | | | | | | |isnan item|iso|iso|iso|name]; try done; intros _; simpl.
  - by exists VNone.
  - destruct isnan as [[]|]; simpl; [by exists VNone | by exists item | done].
  - by exists (VStr iso).
  - by exists (VStr iso).
  - by exists (VStr iso).
Qed.

(** An instance of [float] is written by the base encoder, whatever else
    its class derives from: [default] is not consulted. *)
Lemma dumps_float (f : pyfloat) (numpy : bool) :
  written_by_base (VFloat f numpy) = true
  /\ dumps (VFloat f numpy) = Ret (floatstr f).
Proof. done. Qed.

(** Through the encoder, the kinds the method lists come out as null or as
    their ISO-8601 string; a NumPy scalar that is no float comes out as its
    [item()] does. *)
Lemma dumps_listed_kinds :
  dumps VNaT = Ret TNull
  /\ (forall item, dumps (VNumpy (Some true) item) = Ret TNull)
  /\ (forall item, dumps (VNumpy (Some false) item) = dumps item)
  /\ (forall iso, dumps (VTimestamp iso) = Ret (TString iso))
  /\ (forall iso, dumps (VDatetime iso) = Ret (TString iso))
  /\ (forall iso, dumps (VDate iso) = Ret (TString iso)).
Proof. repeat split. Qed.

(** A dict is written by the base encoder, value by value; the dict branch
    of [default], which would refuse a plain value, is not reached. *)
Example dumps_dict_with_int :
  dumps (VDict [("n", VInt 1); ("seen", VNaT)])
  = Ret (TObject [("n", TNumber "1"); ("seen", TNull)])
  /\ raised (default (classify (VDict [("n", VInt 1); ("seen", VNaT)]))) = true.
Proof. split; reflexivity. Qed.

(** C8.  [np.float64('nan')] is a NumPy scalar that is NaN, and [default]
    called on it returns [None]; but being an instance of [float] it is
    written by the base encoder before [default] is ever consulted, as the
    bare word [NaN] and not as [null], alone or as a value of a dict.  The
    NaN of a dtype that is no [float], such as [np.float32('nan')], does
    come out as [null]. *)
Theorem dumps_float64_nan_is_not_null :
  default (classify float64_nan) = Ret PNone
  /\ dumps float64_nan = Ret TNaN
  /\ dumps (VDict [("amount", float64_nan)]) = Ret (TObject [("amount", TNaN)])
  /\ dumps float64_nan <> Ret TNull
  /\ dumps float32_nan = Ret TNull.
Proof. repeat split. done. Qed.

End Encoding.

(* ===================================================================== *)
(** ** The handlers                                                       *)
(* ===================================================================== *)

Module Handling.
Import Py FileUtils App Props.

Section Facts.
Context {Ext Conn Cursor QueryResults DataFrame : Type}.
Variable svc : Services Ext Conn Cursor QueryResults DataFrame.
Abbreviation World := (World Ext).
Abbreviation quiet := (Props.quiet (Ext := Ext)).
Abbreviation sends_only := (Props.sends_only (Ext := Ext)).

Ltac run := unfold try_except, bind, ret, raise, lift; simpl.

(** Collaborator calls leave the files and the record of store calls
    alone. *)
Lemma call_frame {A} (c : Call A) (w : World) :
  fs (snd (call c w)) = fs w /\ store_calls (snd (call c w)) = store_calls w.
Proof. unfold call, zoom. by destruct (c (ext w)). Qed.

(** *** Store calls *)

Lemma quiet_ret {A} (a : A) : quiet (ret a).
Proof. intros w. exists []. by rewrite app_nil_r. Qed.

Lemma quiet_raise {A} e : quiet (raise (A := A) e).
Proof. intros w. exists []. by rewrite app_nil_r. Qed.

Lemma quiet_lift {A} (r : Result A) : quiet (lift r).
Proof. intros w. exists []. by rewrite app_nil_r. Qed.

Lemma quiet_call {A} (c : Call A) : quiet (call c).
Proof.
  intros w. exists []. rewrite app_nil_r. split; [|done]. apply call_frame.
Qed.

Lemma quiet_bind {A B} (c : Run World A) (k : A -> Run World B) :
  quiet c -> (forall a, quiet (k a)) -> quiet (bind c k).
Proof.
  intros Hc Hk w. destruct (Hc w) as (l1 & E1 & F1). unfold bind.
  destruct (c w) as [[a|e] w1]; simpl in *.
  - destruct (Hk a w1) as (l2 & E2 & F2). exists (l1 ++ l2)%list.
    split; [by rewrite E2, E1, <- app_assoc | by rewrite List.filter_app, F1, F2].
  - by exists l1.
Qed.

Lemma quiet_execute_query sql : quiet (run_execute_query svc sql).
Proof.
  intros w. exists [ExecuteQuery sql]. split; [|done].
  unfold run_execute_query, record_call, modify, bind.
  apply (call_frame (execute_query svc sql)
           (mkWorld (fs w) (store_calls w ++ [ExecuteQuery sql]) (ext w))).
Qed.

Ltac prove_quiet :=
  repeat first
    [ apply quiet_ret | apply quiet_raise | apply quiet_lift | apply quiet_call
    | apply quiet_execute_query
    | apply quiet_bind; [|intros ?]
    | match goal with
      | |- quiet (if ?b then _ else _) => destruct b
      | |- quiet (let _ := _ in _) => cbv zeta
      end ].

Lemma sends_only_record statement w :
  sends_only statement (record_call (CursorExecute statement)) w.
Proof. by exists []. Qed.

Lemma sends_only_after {A B} statement (c : Run World A) (k : A -> Run World B) w a w' :
  c w = (Ret a, w') -> store_calls w' = store_calls w ->
  sends_only statement (k a) w' -> sends_only statement (bind c k) w.
Proof.
  intros Hc Hsame (later & E & F). exists later. unfold bind. rewrite Hc.
  by rewrite E, Hsame.
Qed.

Lemma sends_only_then {A B} statement (c : Run World A) (k : A -> Run World B) w :
  sends_only statement c w -> (forall a, quiet (k a)) ->
  sends_only statement (bind c k) w.
Proof.
  intros (l1 & E1 & F1) Hk. unfold sends_only, bind.
  destruct (c w) as [[a|e] w1]; simpl in *.
  - destruct (Hk a w1) as (l2 & E2 & F2). exists (l1 ++ l2)%list.
    split; [by rewrite E2, E1, <- app_assoc | by rewrite List.filter_app, F1, F2].
  - by exists l1.
Qed.

Lemma sends_only_try_except {A} statement (c : Run World A) (h : exn -> Run World A) w :
  sends_only statement c w -> (forall e, quiet (h e)) ->
  sends_only statement (try_except c h) w.
Proof.
  intros (l1 & E1 & F1) Hh. unfold sends_only, try_except.
  destruct (c w) as [[a|e] w1]; simpl in *.
  - by exists l1.
  - destruct (Hh e w1) as (l2 & E2 & F2). exists (l1 ++ l2)%list.
    split; [by rewrite E2, E1, <- app_assoc | by rewrite List.filter_app, F1, F2].
Qed.

(** C9. Once the request carries a non-empty query and the store hands out
    a cursor, [/analyze_data/<upload_id>] calls [cursor.execute] of the
    store on the statement ["DESCRIBE " ++ upload_id ++ ";"], with the path
    segment copied verbatim, whatever string it is.  Whatever that call
    does decides how the endpoint goes on: the column lookup continues from
    the state the call left, with [fetchall] if it returned and with its
    exception if it raised, and in that case the endpoint answers 500 with
    the store's own message.  In the record of store calls the statement
    comes first, and it is the only statement the endpoint sends through
    the cursor. *)
Theorem analyze_describes_verbatim (upload_id : string) (request : Request) (w : World)
    (payload user_query : json) (conn : Conn) (cursor : Cursor) (e1 e2 e3 : Ext)
    (outcome : Result unit) :
  get_json request = Ret payload ->
  dict_get payload "query" JNull = Ret user_query ->
  truthy user_query = true ->
  get_db svc (ext w) = (Ret conn, e1) ->
  conn_cursor svc conn e1 = (Ret cursor, e2) ->
  cursor_execute svc cursor ("DESCRIBE " ++ upload_id ++ ";") e2 = (outcome, e3) ->
  let sent :=
    mkWorld (fs w)
      (store_calls w ++ [CursorExecute ("DESCRIBE " ++ upload_id ++ ";")]) e3 in
  lookup_columns svc upload_id w
  = match outcome with
    | Ret _ =>
        bind (call (cursor_fetchall svc cursor))
          (fun columns => lift (join_column_names columns)) sent
    | Raise e => (Raise e, sent)
    end
  /\ (forall e, outcome = Raise e ->
      analyze_data_endpoint svc upload_id request w
      = (Ret (error_response 500 ("Error analyzing data: " ++ exn_str e)), sent))
  /\ exists later,
       store_calls (snd (analyze_data_endpoint svc upload_id request w))
       = (store_calls w ++ CursorExecute ("DESCRIBE " ++ upload_id ++ ";") :: later)%list
       /\ List.filter is_cursor_execute later = [].
Proof.
  intros Hjson Hget Htruthy Hdb Hcur Hsent sent.
  assert (Hcols : lookup_columns svc upload_id w
                  = match outcome with
                    | Ret _ =>
                        bind (call (cursor_fetchall svc cursor))
                          (fun columns => lift (join_column_names columns)) sent
                    | Raise e => (Raise e, sent)
                    end).
  { unfold lookup_columns, run_cursor_execute, record_call, modify.
    unfold bind at 1. unfold call at 1, zoom. rewrite Hdb.
    unfold bind at 1. unfold call at 1, zoom. cbn [ext]. rewrite Hcur.
    unfold bind at 1 2. cbn [fst snd]. unfold call at 1, zoom. cbn [ext fs store_calls].
    rewrite Hsent. by destruct outcome as [[]|e]. }
  split; [exact Hcols|]. split.
  - intros e ->. unfold analyze_data_endpoint, try_except.
    unfold bind at 1, lift at 1. rewrite Hjson.
    unfold bind at 1, lift at 1. rewrite Hget, Htruthy. cbn [negb].
    unfold bind at 1. by rewrite Hcols.
  - change (sends_only ("DESCRIBE " ++ upload_id ++ ";")
              (analyze_data_endpoint svc upload_id request) w).
    unfold analyze_data_endpoint.
    apply sends_only_try_except; [|intros; prove_quiet].
    eapply sends_only_after; [unfold lift; by rewrite Hjson | done |].
    eapply sends_only_after; [unfold lift; by rewrite Hget | done |].
    rewrite Htruthy. cbn [negb].
    apply sends_only_then; [|intros; prove_quiet].
    unfold lookup_columns.
    eapply sends_only_after; [unfold call, zoom; by rewrite Hdb | done |].
    eapply sends_only_after; [unfold call, zoom; cbn [ext]; by rewrite Hcur | done |].
    apply sends_only_then; [|intros; prove_quiet].
    apply sends_only_then; [apply sends_only_record | intros; prove_quiet].
Qed.

(** *** /analyze_data *)

(** C7. When the request carries a non-empty query, the column lookup
    succeeds and [get_sql_query] returns a falsy result, the endpoint
    answers with status 200 and a messages list holding one assistant
    message, which says that no SQL query could be generated from the
    user's question. *)
Theorem analyze_without_sql (upload_id : string) (request : Request) (w w1 w2 : World)
    (payload user_query : json) (column_names : string) (sql : option string) :
  get_json request = Ret payload ->
  dict_get payload "query" JNull = Ret user_query ->
  truthy user_query = true ->
  lookup_columns svc upload_id w = (Ret column_names, w1) ->
  call (get_sql_query svc user_query column_names upload_id) w1 = (Ret sql, w2) ->
  nonempty sql = false ->
  analyze_data_endpoint svc upload_id request w
  = (Ret (messages_response
            [message "assistant"
               ("Could not generate an SQL query from the user's question: "
                ++ format_value svc user_query)]), w2)
  /\ status (messages_response
               [message "assistant"
                  ("Could not generate an SQL query from the user's question: "
                   ++ format_value svc user_query)]) = 200.
Proof.
  intros Hjson Hget Htruthy Hcols Hsql Hnone. split; [|done].
  unfold analyze_data_endpoint. run.
  rewrite Hjson, Hget, Htruthy. simpl. rewrite Hcols, Hsql, Hnone. done.
Qed.

(** C3, amended.  Once a SQL query was synthesized, executed and narrated,
    the response is decided by how [generate_charts] ends.  When it returns,
    the endpoint answers 200 with the assistant narration, followed by a
    chart message only if the returned value is truthy.  When it raises,
    the handler's [except] turns the exception into the 500 JSON error
    ["Error analyzing data: ..."]. *)
Theorem analyze_chart_outcome (upload_id : string) (request : Request)
    (w w1 w2 w3 w4 w5 : World) (payload user_query : json)
    (column_names sql text : string) (query_results : QueryResults)
    (outcome : Result (option string)) :
  get_json request = Ret payload ->
  dict_get payload "query" JNull = Ret user_query ->
  truthy user_query = true ->
  lookup_columns svc upload_id w = (Ret column_names, w1) ->
  call (get_sql_query svc user_query column_names upload_id) w1 = (Ret (Some sql), w2) ->
  sql <> EmptyString ->
  run_execute_query svc sql w2 = (Ret query_results, w3) ->
  call (get_assistant_response svc user_query sql query_results) w3 = (Ret text, w4) ->
  call (generate_charts svc query_results) w4 = (outcome, w5) ->
  analyze_data_endpoint svc upload_id request w
  = (Ret match outcome with
         | Ret chart =>
             messages_response
               (message "assistant" text
                :: if nonempty chart
                   then [message "chart" (text_of chart)] else [])
         | Raise e => error_response 500 ("Error analyzing data: " ++ exn_str e)
         end, w5).
Proof.
  intros Hjson Hget Htruthy Hcols Hsql Hne Hexec Htext Hchart.
  unfold analyze_data_endpoint. run.
  rewrite Hjson, Hget, Htruthy. simpl. rewrite Hcols, Hsql.
  apply String.eqb_neq in Hne. simpl. rewrite Hne. simpl.
  rewrite Hexec, Htext, Hchart.
  destruct outcome as [chart|e]; [|done].
  by destruct (nonempty chart).
Qed.

(** *** /search *)

(** [search] answers 200 with the filtered body whenever the upstream body
    parses and filters; the upstream status code plays no part. *)
Lemma search_returns_filtered_body (request : Request) (w : World)
    (payload query data out : json) (r : HttpResponse) (e1 : Ext) :
  get_json request = Ret payload ->
  dict_get payload "query" JNull = Ret query ->
  truthy query = true ->
  requests_get svc (upstream_url svc query) (ext w) = (Ret r, e1) ->
  resp_json r = Ret data ->
  Catalog.filter_resources data = Ret out ->
  search svc request w = (Ret (mkResponse 200 out), mkWorld (fs w) (store_calls w) e1).
Proof.
  intros Hjson Hget Htruthy Hreq Hdata Hout.
  unfold search, call, zoom. run. rewrite Hjson, Hget, Htruthy. simpl.
  unfold upstream_url in Hreq. rewrite Hreq, Hdata, Hout. done.
Qed.

(** C10. An upstream body that is a mapping without a ['result'] key is
    returned unchanged by [filter_resources], and [/search] passes it to
    the caller as it is, with status 200. *)
Theorem search_passes_resultless_body (request : Request) (w : World)
    (payload query : json) (d : gmap string json) (r : HttpResponse) (e1 : Ext) :
  get_json request = Ret payload ->
  dict_get payload "query" JNull = Ret query ->
  truthy query = true ->
  requests_get svc (upstream_url svc query) (ext w) = (Ret r, e1) ->
  resp_json r = Ret (JObj d) ->
  d !! "result" = None ->
  Catalog.filter_resources (JObj d) = Ret (JObj d)
  /\ search svc request w
     = (Ret (mkResponse 200 (JObj d)), mkWorld (fs w) (store_calls w) e1).
Proof.
  intros Hjson Hget Htruthy Hreq Hdata Hnone.
  pose proof (Filtering.filter_resources_no_result d Hnone) as Hsame.
  split; [done|]. by eapply search_returns_filtered_body.
Qed.

(** *** The upload handlers *)

(** A name without a dot: the sniffer's [IndexError] reaches the outer
    [except] of [/upload], which answers 500. *)
Lemma upload_file_no_extension (request : Request) (w : World) (file : FileStorage) :
  files request !! "file" = Some file ->
  filename file <> EmptyString ->
  contains_char "." (filename file) = false ->
  upload_file svc request w
  = (Ret (error_response 500 "Unhandled exception: list index out of range"), w).
Proof.
  intros Hfile Hname Hdot. unfold upload_file, file_and_allowed, file_truthy. run.
  rewrite Hfile. apply String.eqb_neq in Hname. rewrite Hname. simpl.
  rewrite Sniffing.allowed_file_no_extension by done. done.
Qed.

Lemma os_remove_gone path (w : World) :
  fs (snd (os_remove path w)) !! path = None.
Proof.
  unfold os_remove. destruct (fs w !! path) eqn:H; simpl; [|done].
  apply lookup_delete_eq.
Qed.

Lemma try_finally_state {A} (c : Run World A) (f : Run World unit) (w : World) :
  snd (try_finally c f w) = snd (f (snd (c w))).
Proof.
  unfold try_finally. destruct (c w) as [r w1]. simpl.
  by destruct (f w1) as [[?|?] ?].
Qed.

Lemma upload_result_frame upload_id sample_data (w : World) :
  snd (upload_result svc upload_id sample_data w) = w.
Proof.
  unfold upload_result. destruct upload_id; [|done].
  destruct (negb _); [|done]. run. by destruct (df_to_json _ _ _).
Qed.

(** X25. [/upload]: the saved file is gone when the handler returns, whether
    [clean_and_store_data] returns or raises. *)
Lemma upload_file_removes_saved_file (request : Request) (w : World)
    (file file' : FileStorage) :
  files request !! "file" = Some file ->
  filename file <> EmptyString ->
  allowed_file (sniffers svc) file = (Ret true, file') ->
  fs (snd (upload_file svc request w)) !! saved_path svc file' = None.
Proof.
  intros Hfile Hname Hok. unfold upload_file, file_and_allowed, file_truthy.
  unfold try_except at 1. unfold bind at 1.
  rewrite Hfile. apply String.eqb_neq in Hname. rewrite Hname. cbn [negb].
  rewrite Hok. unfold ret at 1. cbn iota beta zeta.
  unfold bind at 1.
  match goal with |- context [try_finally ?c ?f ?w] =>
    pose proof (try_finally_state c f w) as Hst;
    pose proof (os_remove_gone (saved_path svc file') (snd (c w))) as Hgone;
    destruct (try_finally c f w) as [[[early|[upload_id sample_data]]|e] w1]
  end; simpl in Hst; unfold saved_path in *; rewrite <- Hst in Hgone; try done.
  simpl. pose proof (upload_result_frame upload_id sample_data w1) as Hfr.
  destruct (upload_result svc upload_id sample_data w1) as [[?|?] ?]; simpl in *; by subst.
Qed.

(** The same name reached through [/upload_from_url]. *)
Lemma upload_from_url_no_extension (request : Request) (w : World)
    (payload : json) (u name ctype : string) (r : HttpResponse) (e1 : Ext) :
  get_json request = Ret payload ->
  dict_get payload "url" (JStr EmptyString) = Ret (JStr u) ->
  requests_get svc (JStr u) (ext w) = (Ret r, e1) ->
  status_code r = 200 ->
  index_last (split "/" u) = Ret name ->
  header_content_type r = Some ctype ->
  name <> EmptyString ->
  contains_char "." name = false ->
  upload_from_url svc request w
  = (Ret (error_response 500 "Unhandled exception: list index out of range"),
     mkWorld (fs w) (store_calls w) e1).
Proof.
  intros Hjson Hget Hreq Hstatus Hname Hctype Hne Hdot.
  unfold upload_from_url, file_and_allowed, file_truthy, call, zoom. run.
  rewrite Hjson, Hget. simpl. rewrite Hreq, Hstatus. simpl. rewrite Hname, Hctype.
  simpl. apply String.eqb_neq in Hne. rewrite Hne. simpl.
  rewrite Sniffing.allowed_file_no_extension by done. done.
Qed.

(** [/upload_from_url]: when ingestion leaves the saved file in place, so
    does the handler, whether [clean_and_store_data] returns or raises. *)
Lemma upload_from_url_keeps_saved_file (request : Request) (w : World)
    (payload : json) (u name ctype : string) (r : HttpResponse) (e1 e2 : Ext)
    (file' : FileStorage) (conn : Conn) (blob : bytes)
    (stored : Result (option string * DataFrame)) (after : gmap string bytes * Ext) :
  get_json request = Ret payload ->
  dict_get payload "url" (JStr EmptyString) = Ret (JStr u) ->
  requests_get svc (JStr u) (ext w) = (Ret r, e1) ->
  status_code r = 200 ->
  index_last (split "/" u) = Ret name ->
  header_content_type r = Some ctype ->
  name <> EmptyString ->
  allowed_file (sniffers svc) (mkFile name (content r) 0 ctype) = (Ret true, file') ->
  get_db svc e1 = (Ret conn, e2) ->
  clean_and_store_data svc (saved_path svc file') (consumed file') conn
    (<[saved_path svc file' := unread file']> (fs w), e2) = (stored, after) ->
  fst after !! saved_path svc file' = Some blob ->
  fs (snd (upload_from_url svc request w)) !! saved_path svc file' = Some blob.
Proof.
  intros Hjson Hget Hreq Hstatus Hname Hctype Hne Hok Hdb Hclean Hkept.
  unfold upload_from_url, file_and_allowed, file_truthy, call, zoom,
    run_clean_and_store_data, save, modify. run.
  rewrite Hjson, Hget. simpl. rewrite Hreq, Hstatus. simpl. rewrite Hname, Hctype.
  simpl. apply String.eqb_neq in Hne. rewrite Hne. simpl.
  rewrite Hok. simpl. rewrite Hdb. simpl.
  unfold saved_path, unread in Hclean, Hkept |- *. rewrite Hclean.
  destruct stored as [[upload_id sample_data]|e]; simpl; [|done].
  pose proof (upload_result_frame upload_id sample_data
                (mkWorld (fst after) (store_calls w) (snd after))) as Hfr.
  destruct (upload_result svc upload_id sample_data _) as [[?|?] ?];
    simpl in *; by subst.
Qed.
End Facts.

End Handling.

(* ===================================================================== *)
(** ** The handlers on the concrete deployment                            *)
(* ===================================================================== *)

Module Scenarios.
Import Py FileUtils App Props Demo.

(** C1. An empty upload named [empty.csv]: charset detection reports no
    encoding, [decode(None)] raises [TypeError], and [allowed_file] raises
    it instead of falling through to the MIME check, whose verdict the
    spec's reading would return; [/upload] answers 500. *)
Theorem allowed_file_empty_csv_raises :
  let svc := demo_services None no_chart csv_download in
  let file := mkFile "empty.csv" [] 0 "text/csv" in
  chardet_detect (sniffers svc) (unread file) = None
  /\ allowed_file (sniffers svc) file
     = (Raise (Exn TypeError "decode() argument 'encoding' must be str, not None"), file)
  /\ allowed_csv_spec (sniffers svc) (unread file)
     = mime_check (sniffers svc) (unread file)
  /\ upload_file svc (file_request file) empty_world
     = (Ret (error_response 500
               "Unhandled exception: decode() argument 'encoding' must be str, not None"),
        empty_world).
Proof. repeat split; vm_compute; reflexivity. Qed.

(** C2. A file named [README] has no extension: [allowed_file] raises
    [IndexError] instead of answering [False], and both upload handlers
    answer 500 ["Unhandled exception: list index out of range"], not the
    400 ["Unsupported file type"]. *)
Theorem upload_without_extension_is_500 :
  let svc := demo_services None no_chart csv_download in
  let file := mkFile "README" csv_blob 0 "text/plain" in
  let by_url :=
    json_request (JObj {[ "url" := JStr "https://example.org/files/README" ]}) in
  contains_char "." (filename file) = false
  /\ allowed_file (sniffers svc) file
     = (Raise (Exn IndexError "list index out of range"), file)
  /\ upload_file svc (file_request file) empty_world
     = (Ret (error_response 500 "Unhandled exception: list index out of range"),
        empty_world)
  /\ upload_from_url svc by_url empty_world
     = (Ret (error_response 500 "Unhandled exception: list index out of range"),
        empty_world).
Proof. repeat split; vm_compute; reflexivity. Qed.

(** C3, as stated, fails: a query is synthesized and executed, chart
    generation raises, and the endpoint answers with the 500 error instead
    of the messages list with the narration. *)
Lemma analyze_chart_failure_is_500 :
  let svc := demo_services (Some "SELECT SUM(amount) FROM sales") chart_failure
               csv_download in
  let r := analyze_data_endpoint svc "sales" question empty_world in
  store_calls (snd r)
  = [CursorExecute "DESCRIBE sales;"; ExecuteQuery "SELECT SUM(amount) FROM sales"]
  /\ fst r = Ret (error_response 500 "Error analyzing data: no numeric data to plot")
  /\ fst r <> Ret (messages_response [message "assistant" "The total amount is 30."]).
Proof.
  cbv zeta. split; [vm_compute; reflexivity|].
  assert (E : fst (analyze_data_endpoint
                     (demo_services (Some "SELECT SUM(amount) FROM sales") chart_failure
                        csv_download) "sales" question empty_world)
              = Ret (error_response 500 "Error analyzing data: no numeric data to plot"))
    by (vm_compute; reflexivity).
  split; [exact E|]. rewrite E. unfold error_response, messages_response.
  intros H. injection H as Hstatus _. discriminate Hstatus.
Qed.

(** C4. The catalog answers 503 with a JSON error body; [/search] does not
    look at the status code and returns that body with status 200. *)
Theorem search_upstream_error_is_200 :
  let svc := demo_services None no_chart catalog_unavailable in
  let request := json_request (JObj {[ "query" := JStr "population" ]}) in
  status_code catalog_unavailable = 503
  /\ search svc request empty_world
     = (Ret (mkResponse 200 catalog_unavailable_body), empty_world).
Proof. split; vm_compute; reflexivity. Qed.

(** C5. The same CSV, fetched by [/upload_from_url] and posted to
    [/upload]: both answer 200; after [/upload_from_url] the file saved
    under the upload folder is still there, after [/upload] it is gone. *)
Theorem upload_from_url_leaves_saved_file :
  let svc := demo_services None no_chart csv_download in
  let by_url :=
    json_request (JObj {[ "url" := JStr "https://example.org/files/data.csv" ]}) in
  let by_form := file_request (mkFile "data.csv" csv_blob 0 "text/csv") in
  let after_url := upload_from_url svc by_url empty_world in
  let after_form := upload_file svc by_form empty_world in
  fst after_url = fst after_form
  /\ (exists response, fst after_url = Ret response /\ status response = 200)
  /\ fs (snd after_url) !! "/tmp/uploads/data.csv" = Some csv_blob
  /\ fs (snd after_form) !! "/tmp/uploads/data.csv" = None.
Proof.
  cbv zeta. split; [vm_compute; reflexivity|].
  split; [eexists; split; [vm_compute; reflexivity | reflexivity]|].
  split; vm_compute; reflexivity.
Qed.

(** The theorem on the missing query, at the demo store with a completion
    service that returns [None]. *)
Lemma analyze_without_sql_witness :
  let svc := demo_services None no_chart csv_download in
  let payload := JObj {[ "query" := JStr "what is the total amount?" ]} in
  let user_query := JStr "what is the total amount?" in
  let reply :=
    messages_response
      [message "assistant"
         "Could not generate an SQL query from the user's question: what is the total amount?"] in
  (get_json question = Ret payload
   /\ dict_get payload "query" JNull = Ret user_query
   /\ truthy user_query = true
   /\ lookup_columns svc "sales" empty_world = (Ret "name, amount", described)
   /\ call (get_sql_query svc user_query "name, amount" "sales") described
      = (Ret None, described)
   /\ nonempty None = false)
  /\ (analyze_data_endpoint svc "sales" question empty_world = (Ret reply, described)
      /\ status reply = 200).
Proof.
  cbv zeta. split.
  - repeat split; vm_compute; reflexivity.
  - apply (Handling.analyze_without_sql
             (demo_services None no_chart csv_download) "sales" question
             empty_world described described
             (JObj {[ "query" := JStr "what is the total amount?" ]})
             (JStr "what is the total amount?") "name, amount" None);
      vm_compute; reflexivity.
Defined.

(** The theorem on chart outcomes, at a chart generator that raises. *)
Lemma analyze_chart_outcome_witness :
  let sql := "SELECT SUM(amount) FROM sales" in
  let svc := demo_services (Some sql) chart_failure csv_download in
  let user_query := JStr "what is the total amount?" in
  let executed : World unit :=
    mkWorld ∅ [CursorExecute "DESCRIBE sales;"; ExecuteQuery sql] tt in
  (lookup_columns svc "sales" empty_world = (Ret "name, amount", described)
   /\ call (get_sql_query svc user_query "name, amount" "sales") described
      = (Ret (Some sql), described)
   /\ sql <> EmptyString
   /\ run_execute_query svc sql described = (Ret [JInt 30], executed)
   /\ call (get_assistant_response svc user_query sql [JInt 30]) executed
      = (Ret "The total amount is 30.", executed)
   /\ call (generate_charts svc [JInt 30]) executed
      = (Raise (Exn (OtherException "ValueError") "no numeric data to plot"), executed))
  /\ analyze_data_endpoint svc "sales" question empty_world
     = (Ret (error_response 500 "Error analyzing data: no numeric data to plot"),
        executed).
Proof.
  cbv zeta. split.
  - repeat split; try (vm_compute; reflexivity). discriminate.
  - apply (Handling.analyze_chart_outcome
             (demo_services (Some "SELECT SUM(amount) FROM sales") chart_failure
                csv_download)
             "sales" question empty_world described described
             (mkWorld ∅ [CursorExecute "DESCRIBE sales;";
                         ExecuteQuery "SELECT SUM(amount) FROM sales"] tt)
             (mkWorld ∅ [CursorExecute "DESCRIBE sales;";
                         ExecuteQuery "SELECT SUM(amount) FROM sales"] tt)
             (mkWorld ∅ [CursorExecute "DESCRIBE sales;";
                         ExecuteQuery "SELECT SUM(amount) FROM sales"] tt)
             (JObj {[ "query" := JStr "what is the total amount?" ]})
             (JStr "what is the total amount?") "name, amount"
             "SELECT SUM(amount) FROM sales" "The total amount is 30." [JInt 30]
             (Raise (Exn (OtherException "ValueError") "no numeric data to plot")));
      try (vm_compute; reflexivity). discriminate.
Defined.

(** The theorem on the DESCRIBE statement, at an identifier that is no
    table name at all. *)
Lemma analyze_describes_verbatim_witness :
  let svc := demo_services None no_chart csv_download in
  let upload_id := "t; DROP TABLE t" in
  let sent : World unit := mkWorld ∅ [CursorExecute "DESCRIBE t; DROP TABLE t;"] tt in
  (truthy (JStr "what is the total amount?") = true
   /\ get_db svc tt = (Ret tt, tt)
   /\ conn_cursor svc tt tt = (Ret tt, tt)
   /\ cursor_execute svc tt "DESCRIBE t; DROP TABLE t;" tt = (Ret tt, tt))
  /\ lookup_columns svc upload_id empty_world
     = bind (call (cursor_fetchall svc tt))
         (fun columns => lift (join_column_names columns)) sent
  /\ (forall e, Ret tt = Raise e ->
      analyze_data_endpoint svc upload_id question empty_world
      = (Ret (error_response 500 ("Error analyzing data: " ++ exn_str e)), sent))
  /\ exists later,
       store_calls (snd (analyze_data_endpoint svc upload_id question empty_world))
       = (store_calls empty_world
          ++ CursorExecute "DESCRIBE t; DROP TABLE t;" :: later)%list
       /\ List.filter is_cursor_execute later = [].
Proof.
  cbv zeta. split.
  - repeat split; vm_compute; reflexivity.
  - apply (Handling.analyze_describes_verbatim
             (demo_services None no_chart csv_download) "t; DROP TABLE t" question
             empty_world (JObj {[ "query" := JStr "what is the total amount?" ]})
             (JStr "what is the total amount?") tt tt tt tt tt (Ret tt));
      vm_compute; reflexivity.
Defined.

(** The theorem on bodies without ['result'], at the catalog's error
    body. *)
Lemma search_passes_resultless_body_witness :
  let svc := demo_services None no_chart catalog_unavailable in
  let request := json_request (JObj {[ "query" := JStr "population" ]}) in
  (truthy (JStr "population") = true
   /\ requests_get svc (upstream_url svc (JStr "population")) tt
      = (Ret catalog_unavailable, tt)
   /\ resp_json catalog_unavailable = Ret catalog_unavailable_body
   /\ ({[ "success" := JBool false; "error" := JStr "Service Unavailable" ]}
         : gmap string json) !! "result" = None)
  /\ Catalog.filter_resources catalog_unavailable_body = Ret catalog_unavailable_body
  /\ search svc request empty_world
     = (Ret (mkResponse 200 catalog_unavailable_body), empty_world).
Proof.
  cbv zeta. split.
  - repeat split; vm_compute; reflexivity.
  - apply (Handling.search_passes_resultless_body
             (demo_services None no_chart catalog_unavailable)
             (json_request (JObj {[ "query" := JStr "population" ]})) empty_world
             (JObj {[ "query" := JStr "population" ]}) (JStr "population")
             {[ "success" := JBool false; "error" := JStr "Service Unavailable" ]}
             catalog_unavailable tt);
      vm_compute; reflexivity.
Defined.

Lemma catalog_packages_well_formed :
  Forall well_formed_package [population_xlsx; population_csv; population_empty].
Proof.
  repeat constructor;
    (eexists; split; [vm_compute; reflexivity|]);
    repeat constructor; eexists; vm_compute; reflexivity.
Qed.



(** The same with a resource whose format is null: [AttributeError]. *)
Example filter_resources_raises_on_null_format :
  Catalog.filter_resources
    (JObj {[ "result" :=
               JObj {[ "results" :=
                         JList [JObj {[ "resources" :=
                                          JList [JObj {[ "format" := JNull ]}] ]}] ]} ]})
  = Raise (Exn AttributeError "'NoneType' object has no attribute 'lower'").
Proof. vm_compute; reflexivity. Qed.

(** A package the lazy scan keeps although a later resource of it is no
    mapping at all: the test returns at the first hit. *)
Example filter_resources_keeps_lazily :
  let package :=
    JObj {[ "resources" := JList [JObj {[ "format" := JStr "CSV" ]}; JNull] ]} in
  Catalog.has_csv_resource package = Ret true
  /\ offers_csvb package = true
  /\ Catalog.filter_resources
       (JObj {[ "result" := JObj {[ "results" := JList [package] ]} ]})
     = Ret (JObj {[ "result" := JObj {[ "results" := JList [package] ]} ]}).
Proof. cbv zeta. repeat split; vm_compute; reflexivity. Qed.

End Scenarios.

(* ===================================================================== *)
(** ** Rules for results and frames                                       *)
(* ===================================================================== *)

Module Logic.
Import Py FileUtils App Props Vocabulary.

Section Rules.
Context {Ext Conn Cursor QueryResults DataFrame : Type}.
Variable svc : Services Ext Conn Cursor QueryResults DataFrame.
Abbreviation World := (World Ext).
Abbreviation yields := (Vocabulary.yields (Ext := Ext)).
Abbreviation keeps := (Vocabulary.keeps (Ext := Ext)).

Lemma yields_ret {A} (P : A -> Prop) a : P a -> yields P (ret a).
Proof. intros H w. exact H. Qed.

Lemma yields_raise {A} (P : A -> Prop) e : yields P (raise e).
Proof. by intros w. Qed.

Lemma yields_any {A} (c : Run World A) : yields (fun _ => True) c.
Proof. intros w. by destruct (fst (c w)). Qed.

Lemma yields_bind {A B} (P : A -> Prop) (Q : B -> Prop) (c : Run World A) k :
  yields P c -> (forall a, P a -> yields Q (k a)) -> yields Q (bind c k).
Proof.
  intros Hc Hk w. specialize (Hc w). unfold bind.
  destruct (c w) as [[a|e] w1]; simpl in *; [|done]. by apply Hk.
Qed.

Lemma yields_try_except {A} (P : A -> Prop) (c : Run World A) h :
  yields P c -> (forall e, yields P (h e)) -> yields P (try_except c h).
Proof.
  intros Hc Hh w. specialize (Hc w). unfold try_except.
  destruct (c w) as [[a|e] w1]; simpl in *; [done|]. apply Hh.
Qed.

Lemma yields_try_finally {A} (P : A -> Prop) (c : Run World A) f :
  yields P c -> yields P (try_finally c f).
Proof.
  intros Hc w. specialize (Hc w). unfold try_finally.
  destruct (c w) as [r w1]. by destruct (f w1) as [[?|?] ?].
Qed.

(** A handler whose [except] clause answers never raises. *)
Lemma handler_answers (P : Response -> Prop) (c : Run World Response) f w :
  yields P c -> (forall e, P (f e)) ->
  exists r w', try_except c (fun e => ret (f e)) w = (Ret r, w') /\ P r.
Proof.
  intros Hc Hf. specialize (Hc w). unfold try_except.
  destruct (c w) as [[a|e] w1]; simpl in *; eauto.
Qed.

Lemma keeps_ret {A B} (proj : World -> B) (a : A) : keeps proj (ret a).
Proof. by intros w. Qed.

Lemma keeps_raise {A B} (proj : World -> B) e : keeps proj (raise (A := A) e).
Proof. by intros w. Qed.

Lemma keeps_lift {A B} (proj : World -> B) (r : Result A) : keeps proj (lift r).
Proof. by intros w. Qed.

Lemma keeps_bind {A B C} (proj : World -> C) (c : Run World A) (k : A -> Run World B) :
  keeps proj c -> (forall a, keeps proj (k a)) -> keeps proj (bind c k).
Proof.
  intros Hc Hk w. specialize (Hc w). unfold bind.
  destruct (c w) as [[a|e] w1]; simpl in *; [|done]. by rewrite Hk.
Qed.

Lemma keeps_try_except {A C} (proj : World -> C) (c : Run World A) h :
  keeps proj c -> (forall e, keeps proj (h e)) -> keeps proj (try_except c h).
Proof.
  intros Hc Hh w. specialize (Hc w). unfold try_except.
  destruct (c w) as [[a|e] w1]; simpl in *; [done|]. by rewrite Hh.
Qed.

Lemma keeps_fs_call {A} (c : Call A) : keeps fs (call c).
Proof. intros w. apply Handling.call_frame. Qed.

Lemma keeps_calls_call {A} (c : Call A) : keeps store_calls (call c).
Proof. intros w. apply Handling.call_frame. Qed.

Lemma keeps_fs_record c : keeps fs (record_call (Ext := Ext) c).
Proof. by intros w. Qed.

End Rules.

Ltac prove_yields :=
  repeat first
    [ apply yields_ret; unfold status_in; simpl; tauto
    | apply yields_raise
    | eapply yields_bind; [apply yields_any | intros ? _]
    | match goal with
      | |- Vocabulary.yields _ (if ?b then _ else _) => destruct b
      | |- Vocabulary.yields _ (let _ := _ in _) => cbv zeta
      | |- Vocabulary.yields _ (match ?x with _ => _ end) => destruct x
      end ].

Ltac prove_keeps :=
  repeat first
    [ apply keeps_ret | apply keeps_raise | apply keeps_lift
    | apply keeps_fs_call | apply keeps_calls_call | apply keeps_fs_record
    | apply keeps_try_except; [|intros ?]
    | apply keeps_bind; [|intros ?]
    | match goal with
      | |- Vocabulary.keeps _ (if ?b then _ else _) => destruct b
      | |- Vocabulary.keeps _ (let _ := _ in _) => cbv zeta
      end ].
End Logic.

(* ===================================================================== *)
(** ** More on the sniffer                                                *)
(* ===================================================================== *)

Module SnifferFacts.
Import Py FileUtils App Props Vocabulary.

Ltac run_sniffer :=
  unfold allowed_file, bind, get, lift, read, seek, try_except, ret, raise,
    rewind, unread, consumed in *;
  simpl.

(** X1. Whenever [allowed_file] returns a verdict, the file object it was given
    has its read position at the start; name, bytes and content type are
    as before. *)
Theorem allowed_file_restores_position sn file verdict file' :
  allowed_file sn file = (Ret verdict, file') ->
  filename file' = filename file /\ stream file' = stream file /\ pos file' = 0
  /\ content_type file' = content_type file.
Proof.
  run_sniffer. destruct (index _ 1) as [ext|e]; simpl; [|done].
  destruct (String.eqb (lower ext) "csv"); simpl.
  - destruct (bytes_decode _ _ _) as [t|e]; simpl.
    + by intros [= _ <-].
    + destruct (is_UnicodeDecodeError e); simpl; [|done].
      destruct (mime_check _ _); by intros [= _ <-].
  - destruct (mime_check _ _); by intros [= _ <-].
Qed.

(** X2. A verdict of [allowed_file] is true exactly when the name ends in
    [.csv] (in any case) and the decode probe succeeds, or the sniffed MIME
    type is [text/csv]. *)
Theorem allowed_file_verdict sn file verdict file' :
  allowed_file sn file = (Ret verdict, file') ->
  exists ext,
    index (rsplit1 "." (filename file)) 1 = Ret ext
    /\ verdict = csv_decodes sn ext (unread file) || mime_check sn (unread file).
Proof.
  unfold csv_decodes. run_sniffer. destruct (index _ 1) as [ext|e]; simpl; [|done].
  intros H. exists ext. split; [done|]. revert H.
  destruct (String.eqb (lower ext) "csv"); simpl.
  - destruct (bytes_decode _ _ _) as [t|e]; simpl.
    + by intros [= <- _].
    + destruct (is_UnicodeDecodeError e); simpl; [|done].
      destruct (mime_check _ _); by intros [= <- _].
  - destruct (mime_check _ _); by intros [= <- _].
Qed.

(** X3. The outcome of [allowed_file] depends on the lowercased extension and
    the unread bytes only: the stem of the name, the case of the extension,
    the claimed content type and the bytes already read play no part. *)
Theorem allowed_file_ignores_stem_and_case sn f1 f2 stem1 stem2 ext1 ext2 :
  filename f1 = stem1 ++ String "." ext1 ->
  filename f2 = stem2 ++ String "." ext2 ->
  contains_char "." ext1 = false ->
  contains_char "." ext2 = false ->
  lower ext1 = lower ext2 ->
  unread f1 = unread f2 ->
  fst (allowed_file sn f1) = fst (allowed_file sn f2).
Proof.
  intros H1 H2 D1 D2 Hl Hu. run_sniffer.
  rewrite H1, H2, !Sniffing.extension_found by done. simpl.
  rewrite Hl, Hu.
  destruct (String.eqb (lower ext2) "csv"); simpl.
  - destruct (bytes_decode _ _ _) as [t|e]; simpl; [done|].
    destruct (is_UnicodeDecodeError e); simpl; [|done].
    by destruct (mime_check _ _).
  - by destruct (mime_check _ _).
Qed.

(** X4. The extension [allowed_file] compares is the text after the last dot
    of the name: [name.rsplit('.', 1)[1]] is [ext] exactly when the name is
    some stem, a dot, and [ext] without a dot in it. *)
Theorem extension_is_text_after_last_dot name ext :
  index (rsplit1 "." name) 1 = Ret ext
  <-> exists stem, name = stem ++ String "." ext /\ contains_char "." ext = false.
Proof.
  split.
  - unfold rsplit1, index.
    destruct (rsplit_last "." name) as [[pre suf]|] eqn:H; simpl; [|done].
    intros [= <-]. exists pre. revert pre H.
    induction name as [|a name IH]; intros pre H; simpl in H; [done|].
    destruct (rsplit_last "." name) as [[p s]|] eqn:E.
    + injection H as <- <-. destruct (IH p eq_refl) as [-> Hd]. done.
    + destruct (Ascii.eqb_spec a "."); [|done].
      injection H as <- <-. subst a. split; [done|].
      by apply Sniffing.rsplit_last_None.
  - intros (stem & -> & Hd). by apply Sniffing.extension_found.
Qed.

End SnifferFacts.

(* ===================================================================== *)
(** ** More on the catalog filter                                         *)
(* ===================================================================== *)

Module CatalogFacts.
Import Py App Catalog Props.

Lemma filter_keeps_well_formed packages :
  Forall well_formed_package packages ->
  Forall well_formed_package (List.filter offers_csvb packages).
Proof.
  induction 1 as [|p ps Hp _ IH]; simpl; [constructor|].
  destruct (offers_csvb p); [by constructor | done].
Qed.

Lemma filter_twice {A} (f : A -> bool) (l : list A) :
  List.filter f (List.filter f l) = List.filter f l.
Proof.
  induction l as [|x l IH]; simpl; [done|].
  destruct (f x) eqn:E; simpl; [rewrite E|]; by rewrite ?IH.
Qed.

Lemma filter_resources_well_formed (d res : gmap string json) packages :
  d !! "result" = Some (JObj res) ->
  res !! "results" = Some (JList packages) ->
  Forall well_formed_package packages ->
  filter_resources (JObj d)
  = Ret (JObj (<["result" := JObj (<["results" := JList (List.filter offers_csvb packages)]> res)]> d)).
Proof.
  intros Hd Hres Hwf. unfold filter_resources. simpl. rewrite Hd. simpl.
  rewrite Hres. simpl. by rewrite (Filtering.filter_loop_well_formed _ Hwf).
Qed.

(** X5. Filtering is idempotent: on a well-formed catalog answer, what
    [filter_resources] returns is returned unchanged by a second pass. *)
Theorem filter_resources_idempotent (d res : gmap string json) (packages : list json) (out : json) :
  d !! "result" = Some (JObj res) ->
  res !! "results" = Some (JList packages) ->
  Forall well_formed_package packages ->
  filter_resources (JObj d) = Ret out ->
  filter_resources out = Ret out.
Proof.
  intros Hd Hres Hwf. rewrite (filter_resources_well_formed _ _ _ Hd Hres Hwf).
  intros [= <-].
  erewrite filter_resources_well_formed;
    [| apply lookup_insert_eq | apply lookup_insert_eq | by apply filter_keeps_well_formed].
  by rewrite filter_twice, !insert_insert_eq.
Qed.

(** X6. [filter_resources] rewrites [result.results] and nothing else: every
    other key of the answer and of its [result] (the upstream [count]
    among them) keeps the value it had. *)
Theorem filter_resources_touches_results_only (d res : gmap string json) (packages : list json) :
  d !! "result" = Some (JObj res) ->
  res !! "results" = Some (JList packages) ->
  Forall well_formed_package packages ->
  exists d' res',
    filter_resources (JObj d) = Ret (JObj d')
    /\ d' !! "result" = Some (JObj res')
    /\ (forall key, key <> "result" -> d' !! key = d !! key)
    /\ (forall key, key <> "results" -> res' !! key = res !! key).
Proof.
  intros Hd Hres Hwf. eexists _, _.
  split; [by apply filter_resources_well_formed|].
  split; [apply lookup_insert_eq|].
  split; intros key Hkey; by rewrite lookup_insert_ne.
Qed.

(** X7. The scan of a package's resources stops at the first CSV resource:
    resources after it are not looked at, so a malformed one there does no
    harm. *)
Theorem any_csv_stops_at_first_hit (before after : list json) (hit : json) :
  Forall (fun r => is_Some (declared_format r)) before ->
  is_csv_resource hit = true ->
  any_csv (before ++ hit :: after) = Ret true.
Proof.
  intros Hb Hhit. induction Hb as [|r rs [fmt Hfmt] _ IH]; simpl.
  - unfold is_csv_resource in Hhit.
    destruct (declared_format hit) as [fmt|] eqn:Hfmt; [|done].
    pose proof (Filtering.declared_format_lower _ _ Hfmt) as Hlow.
    unfold rbind in *. destruct (getitem hit "format"); [|done].
    rewrite Hlow. by rewrite Hhit.
  - pose proof (Filtering.declared_format_lower _ _ Hfmt) as Hlow.
    unfold rbind in *. destruct (getitem r "format"); [|done].
    rewrite Hlow. by destruct (String.eqb (lower fmt) "csv").
Qed.

Lemma filter_loop_fails good bad rest e :
  Forall well_formed_package good ->
  has_csv_resource bad = Raise e ->
  filter_loop (good ++ bad :: rest) = Raise e.
Proof.
  intros Hg Hbad. induction Hg as [|p ps Hp _ IH]; simpl.
  - by rewrite Hbad.
  - rewrite (Filtering.has_csv_resource_well_formed _ Hp). simpl. by rewrite IH.
Qed.

(** X8. One package on which the resource test raises fails the whole
    filter with that exception, whatever precedes and follows it. *)
Theorem filter_resources_fails_on_malformed_package
    (d res : gmap string json) (good rest : list json) (bad : json) e :
  d !! "result" = Some (JObj res) ->
  res !! "results" = Some (JList (good ++ bad :: rest)) ->
  Forall well_formed_package good ->
  has_csv_resource bad = Raise e ->
  filter_resources (JObj d) = Raise e.
Proof.
  intros Hd Hres Hg Hbad. unfold filter_resources. simpl. rewrite Hd. simpl.
  rewrite Hres. simpl. by rewrite (filter_loop_fails _ _ _ _ Hg Hbad).
Qed.

End CatalogFacts.

(* ===================================================================== *)
(** ** More on the JSON encoder                                           *)
(* ===================================================================== *)

Module EncoderFacts.
Import Py JSONEncoder Props.

Lemma rmap_encode_item_ret items encoded :
  rmap encode_item items = Ret encoded ->
  Forall2 (fun kv kv' => kv'.1 = kv.1 /\ default kv.2 = Ret kv'.2) items encoded.
Proof.
  revert encoded. induction items as [|[k v] rest IH]; intros encoded; simpl.
  - intros [= <-]. constructor.
  - unfold encode_item at 1. simpl.
    destruct (default v) as [v'|e] eqn:Hv; simpl; [|done].
    destruct (rmap encode_item rest) as [tail|e]; simpl; [|done].
    intros [= <-]. constructor; [done|]. by apply IH.
Qed.

(** X9. When [default] encodes a dict, the result is a dict with the same keys
    in the same order, each value being what [default] returns on the
    original value. *)
Theorem default_dict_keeps_keys items encoded :
  default (PDict items) = Ret encoded ->
  exists items',
    encoded = PDict items'
    /\ items'.*1 = items.*1
    /\ Forall2 (fun kv kv' => default kv.2 = Ret kv'.2) items items'.
Proof.
  rewrite Encoding.default_dict.
  destruct (rmap encode_item items) as [enc|e] eqn:E; simpl; [|done].
  intros [= <-]. exists enc. split; [done|].
  apply rmap_encode_item_ret in E. clear -E.
  induction E as [|kv kv' l l' [Hk Hv] _ [IH1 IH2]]; [by split|].
  split; [by rewrite !fmap_cons, Hk, IH1 | by constructor].
Qed.

(** X10. [default] refuses a dict as soon as it refuses one of its values: the
    exception is that of the first such value in item order. *)
Theorem default_dict_refused_with_first_failure before after key value e :
  Forall (fun kv => raised (default kv.2) = false) before ->
  default value = Raise e ->
  default (PDict (before ++ (key, value) :: after)) = Raise e.
Proof.
  intros Hb Hv. rewrite Encoding.default_dict.
  induction Hb as [|[k v] rest Hk _ IH]; simpl.
  - unfold encode_item at 1. simpl. by rewrite Hv.
  - unfold encode_item at 1. simpl in *. destruct (default v); [|done]. simpl.
    destruct (rmap encode_item _) as [|e']; simpl in *; [done|]. done.
Qed.

(** A dict is encoded exactly when each of its values is. *)
Lemma default_dict_returns_iff items :
  raised (default (PDict items)) = existsb (fun kv => raised (default kv.2)) items.
Proof.
  rewrite Encoding.default_dict.
  induction items as [|[k v] rest IH]; simpl; [done|].
  unfold encode_item at 1. simpl. destruct (default v); simpl; [|done].
  destruct (rmap encode_item rest); simpl in *; done.
Qed.

End EncoderFacts.

(* ===================================================================== *)
(** ** More on the handlers                                               *)
(* ===================================================================== *)

Module HandlerFacts.
Import Py FileUtils App Props Vocabulary Logic.

Lemma split_without c s : contains_char c s = false -> split c s = [s].
Proof.
  induction s as [|a s IH]; simpl; [done|].
  intros H. apply orb_false_elim in H as [Ha Hs]. rewrite Ha, IH by done. done.
Qed.

Lemma split_with c s :
  contains_char c s = true -> exists h x t, split c s = h :: x :: t.
Proof.
  induction s as [|a s IH]; simpl; [done|].
  destruct (Ascii.eqb a c); simpl.
  - intros _. destruct (contains_char c s) eqn:E.
    + destruct (IH eq_refl) as (h & x & t & ->). eauto.
    + rewrite split_without by done. eauto.
  - intros H. destruct (IH H) as (h & x & t & ->). eauto.
Qed.

Lemma last_split c s : last (split c s) = Some (after_last c s).
Proof.
  unfold after_last. induction s as [|a s IH]; simpl; [done|].
  destruct (contains_char c s) eqn:E.
  - destruct (split_with c s E) as (h & x & t & S).
    destruct (rsplit_last c s) as [[pre suf]|] eqn:R;
      [|apply Sniffing.rsplit_last_None in R; congruence].
    rewrite S in IH |- *. destruct (Ascii.eqb a c); by rewrite !last_cons_cons in *.
  - pose proof E as R. apply Sniffing.rsplit_last_None in R. rewrite R.
    rewrite split_without by done. by destruct (Ascii.eqb a c).
Qed.

Lemma after_last_clean c s : contains_char c (after_last c s) = false.
Proof.
  unfold after_last. destruct (rsplit_last c s) as [[pre suf]|] eqn:R.
  - revert pre R. induction s as [|a s IH]; intros pre R; simpl in R; [done|].
    destruct (rsplit_last c s) as [[p q]|] eqn:E.
    + injection R as <- <-. by eapply IH.
    + destruct (Ascii.eqb a c); [|done]. injection R as <- <-.
      by apply Sniffing.rsplit_last_None.
  - by apply Sniffing.rsplit_last_None.
Qed.

Lemma after_last_suffix c s : exists before, s = before ++ after_last c s.
Proof.
  unfold after_last. destruct (rsplit_last c s) as [[pre suf]|] eqn:R.
  - revert pre R. induction s as [|a s IH]; intros pre R; simpl in R; [done|].
    destruct (rsplit_last c s) as [[p q]|] eqn:E.
    + injection R as <- <-. destruct (IH p eq_refl) as [b Hb].
      exists (String a b). change (String a s = String a (b ++ q)). by rewrite <- Hb.
    + destruct (Ascii.eqb a c); [|done]. injection R as <- <-.
      by exists (String a EmptyString).
  - by exists EmptyString.
Qed.

Lemma last_segment_defined (u : string) :
  last_segment (JStr u) = Ret (after_last "/" u).
Proof. unfold last_segment, index_last. by rewrite last_split. Qed.

(** X29. The filename [/upload_from_url] derives from the URL,
    [url.split("/")[-1]], always exists, is a suffix of the URL and holds
    no slash. *)
Theorem last_segment_has_no_slash (u : string) :
  exists name before,
    last_segment (JStr u) = Ret name
    /\ contains_char "/" name = false
    /\ u = before ++ name.
Proof.
  destruct (after_last_suffix "/" u) as [before Hb].
  exists (after_last "/" u), before.
  repeat split; [apply last_segment_defined | apply after_last_clean | done].
Qed.

Lemma last_segment_trailing_slash before :
  last_segment (JStr (before ++ "/")) = Ret EmptyString.
Proof.
  rewrite last_segment_defined. unfold after_last.
  by rewrite (Sniffing.rsplit_last_app "/" before EmptyString).
Qed.

Section Facts.
Context {Ext Conn Cursor QueryResults DataFrame : Type}.
Variable svc : Services Ext Conn Cursor QueryResults DataFrame.
Abbreviation World := (World Ext).
Ltac run := unfold try_except, bind, ret, raise, lift; simpl.

Lemma upload_result_answers upload_id sample_data :
  Vocabulary.yields (status_in [200; 400; 500]) (upload_result svc upload_id sample_data).
Proof. unfold upload_result. prove_yields. Qed.

(** X12. No exception leaves a handler: each of the four endpoints returns a
    response, and its status is 200, 400 or 500. *)
Theorem handlers_always_answer (upload_id : string) (request : Request) (w : World) :
  (exists r w', upload_file svc request w = (Ret r, w') /\ status_in [200; 400; 500] r)
  /\ (exists r w', upload_from_url svc request w = (Ret r, w')
                   /\ status_in [200; 400; 500] r)
  /\ (exists r w', analyze_data_endpoint svc upload_id request w = (Ret r, w')
                   /\ status_in [200; 400; 500] r)
  /\ (exists r w', search svc request w = (Ret r, w') /\ status_in [200; 400; 500] r).
Proof.
  repeat split.
  - apply handler_answers; [|intros e; unfold status_in; simpl; tauto].
    destruct (files request !! "file") as [file|]; [|prove_yields].
    destruct (String.eqb (filename file) EmptyString); [prove_yields|].
    eapply yields_bind; [apply yields_any|intros [ok file'] _].
    destruct ok; [|prove_yields]. cbv zeta.
    eapply yields_bind with (P := fun o => match o with
                                           | inl early => status_in [200; 400; 500] early
                                           | inr _ => True end).
    + apply yields_try_finally, yields_try_except.
      * eapply yields_bind; [apply yields_any|intros ? _].
        eapply yields_bind; [apply yields_any|intros ? _].
        eapply yields_bind; [apply yields_any|intros ? _].
        by apply yields_ret.
      * intros e. apply yields_ret. unfold status_in; simpl; tauto.
    + intros [early|[uid df]] H; [by apply yields_ret|]. apply upload_result_answers.
  - apply handler_answers; [|intros e; unfold status_in; simpl; tauto].
    unfold upload_from_url.
    repeat (eapply yields_bind; [apply yields_any|intros ? _]).
    destruct (negb _); [prove_yields|].
    repeat (eapply yields_bind; [apply yields_any|intros ? _]).
    match goal with |- Vocabulary.yields _ (let '(ok, f) := ?p in _) => destruct p as [[] ?] end;
      [|prove_yields]. cbv zeta.
    repeat (eapply yields_bind; [apply yields_any|intros ? _]).
    match goal with |- Vocabulary.yields _ (let '(a, b) := ?p in _) => destruct p end.
    apply upload_result_answers.
  - apply handler_answers; [|intros e; unfold status_in; simpl; tauto].
    prove_yields.
  - apply handler_answers; [|intros e; unfold status_in; simpl; tauto].
    prove_yields.
Qed.

(** X13. [/analyze_data] and [/search] never write to the upload folder, and
    [/search] makes no call to the store. *)
Theorem readers_leave_upload_folder (upload_id : string) (request : Request) (w : World) :
  fs (snd (analyze_data_endpoint svc upload_id request w)) = fs w
  /\ fs (snd (search svc request w)) = fs w
  /\ store_calls (snd (search svc request w)) = store_calls w.
Proof.
  repeat split.
  - revert w. change (Vocabulary.keeps fs (analyze_data_endpoint svc upload_id request)).
    unfold analyze_data_endpoint, lookup_columns, run_cursor_execute, run_execute_query.
    prove_keeps.
  - revert w. change (Vocabulary.keeps fs (search svc request)).
    unfold search. prove_keeps.
  - revert w. change (Vocabulary.keeps store_calls (search svc request)).
    unfold search. prove_keeps.
Qed.
(** X14. [/analyze_data] answers 400 exactly when the [query] of the JSON
    object is falsy (absent, null, empty, zero, false); it then answers
    ["No query provided"] and touches neither the store nor any
    collaborator. *)
Theorem analyze_400_iff_query_falsy (upload_id : string) (request : Request) (w : World)
    (payload user_query : json) :
  get_json request = Ret payload ->
  dict_get payload "query" JNull = Ret user_query ->
  exists r w',
    analyze_data_endpoint svc upload_id request w = (Ret r, w')
    /\ (status r = 400 <-> truthy user_query = false)
    /\ (truthy user_query = false -> r = error_response 400 "No query provided" /\ w' = w).
Proof.
  intros Hjson Hget. unfold analyze_data_endpoint.
  destruct (truthy user_query) eqn:Ht.
  - match goal with |- context [try_except ?c ?h w] =>
      assert (Hw : exists r w', try_except c h w = (Ret r, w') /\ status_in [200; 500] r)
    end.
    { apply handler_answers; [|intros e; unfold status_in; simpl; tauto].
      intros w0. unfold bind at 1, lift at 1. rewrite Hjson.
      unfold bind at 1, lift at 1. rewrite Hget, Ht. cbn [negb].
      match goal with |- match fst (?c w0) with _ => _ end =>
        revert w0; change (Vocabulary.yields (status_in [200; 500]) c) end.
      prove_yields. }
    destruct Hw as (r & w' & E & Hs). exists r, w'. split; [done|].
    unfold status_in in Hs. simpl in Hs. split; [|done].
    split; [|done]. intros H400. destruct Hs as [Hs|[Hs|[]]]; congruence.
  - exists (error_response 400 "No query provided"), w. run.
    rewrite Hjson, Hget, Ht. done.
Qed.

(** X15. A JSON body that is not an object makes [/analyze_data], [/search]
    and [/upload_from_url] answer 500 with the [AttributeError] of the
    missing [get], before any collaborator is called. *)
Theorem json_handlers_reject_non_objects (upload_id : string) (request : Request) (w : World)
    (payload : json) :
  get_json request = Ret payload ->
  (forall m, payload <> JObj m) ->
  let complaint := "'" ++ type_name payload ++ "' object has no attribute 'get'" in
  analyze_data_endpoint svc upload_id request w
  = (Ret (error_response 500 ("Error analyzing data: " ++ complaint)), w)
  /\ search svc request w = (Ret (error_response 500 ("Error in search: " ++ complaint)), w)
  /\ upload_from_url svc request w
     = (Ret (error_response 500 ("Unhandled exception: " ++ complaint)), w).
Proof.
  intros Hjson Hno. unfold analyze_data_endpoint, search, upload_from_url. run.
  rewrite Hjson. destruct payload; simpl; try done. by destruct (Hno m).
Qed.

Lemma keeps_after_bind {A B C} (proj : World -> C) (c : Run World A) (k : A -> Run World B) w :
  (forall a, Vocabulary.keeps proj (k a)) ->
  proj (snd (bind c k w)) = proj (snd (c w)).
Proof.
  intros Hk. unfold bind. destruct (c w) as [[a|e] w1]; simpl; [|done]. apply Hk.
Qed.

Lemma keeps_after_try_except {A C} (proj : World -> C) (c : Run World A) h w :
  (forall e, Vocabulary.keeps proj (h e)) ->
  proj (snd (try_except c h w)) = proj (snd (c w)).
Proof.
  intros Hh. unfold try_except. destruct (c w) as [[a|e] w1]; simpl; [done|]. apply Hh.
Qed.

Lemma run_execute_query_calls sql (w : World) :
  store_calls (snd (run_execute_query svc sql w))
  = (store_calls w ++ [ExecuteQuery sql])%list.
Proof.
  unfold run_execute_query, record_call, modify, bind.
  apply (Handling.call_frame (execute_query svc sql)
           (mkWorld (fs w) (store_calls w ++ [ExecuteQuery sql]) (ext w))).
Qed.

Lemma lookup_columns_returned upload_id (w w1 : World) column_names :
  lookup_columns svc upload_id w = (Ret column_names, w1) ->
  store_calls w1
  = (store_calls w ++ [CursorExecute ("DESCRIBE " ++ upload_id ++ ";")])%list.
Proof.
  unfold lookup_columns, run_cursor_execute, record_call, modify. unfold bind at 1.
  destruct (call (get_db svc) w) as [[conn|e] w0] eqn:H0; [|done].
  pose proof (Handling.call_frame (get_db svc) w) as [_ F0]. rewrite H0 in F0.
  unfold bind at 1.
  destruct (call (conn_cursor svc conn) w0) as [[cursor|e] w0'] eqn:H1; [|done].
  pose proof (Handling.call_frame (conn_cursor svc conn) w0) as [_ F1]. rewrite H1 in F1.
  simpl in F0, F1. intros H.
  pose proof (f_equal (fun p => store_calls (snd p)) H) as K. simpl in K.
  rewrite <- K, <- F0, <- F1.
  rewrite (keeps_after_bind store_calls); [|intros ?; prove_keeps].
  unfold bind. cbn [fst snd].
  match goal with |- context [call ?c ?w] =>
    pose proof (Handling.call_frame c w) as [_ F2]; by destruct (call c w) as [[[]|?] ?]
  end.
Qed.

(** X16. Once the columns are looked up and [get_sql_query] has returned,
    [/analyze_data] calls [execute_query] of the store exactly when the
    synthesized statement is non-empty, on that statement verbatim.  What
    the call does decides the rest: the rows it returns are the ones handed
    to narration and charting, from the state it left, and its exception
    gives the 500 answer; with an empty statement the endpoint ends in the
    state [get_sql_query] left.  The record of store calls holds the
    DESCRIBE statement and, only in the first case, the synthesized
    statement; nothing else, however narration and charting end. *)
Theorem analyze_store_calls (upload_id : string) (request : Request) (w w1 w2 : World)
    (payload user_query : json) (column_names : string) (sql : option string)
    (outcome : Result QueryResults) (e3 : Ext) :
  get_json request = Ret payload ->
  dict_get payload "query" JNull = Ret user_query ->
  truthy user_query = true ->
  lookup_columns svc upload_id w = (Ret column_names, w1) ->
  call (get_sql_query svc user_query column_names upload_id) w1 = (Ret sql, w2) ->
  execute_query svc (text_of sql) (ext w2) = (outcome, e3) ->
  let executed :=
    mkWorld (fs w2) (store_calls w2 ++ [ExecuteQuery (text_of sql)]) e3 in
  let answered := analyze_data_endpoint svc upload_id request w in
  (if nonempty sql then
     match outcome with
     | Ret query_results =>
         answered
         = try_except
             (bind (call (get_assistant_response svc user_query (text_of sql)
                            query_results)) (fun assistant_response =>
              bind (call (generate_charts svc query_results)) (fun chart_string =>
              ret (messages_response
                     (if nonempty chart_string
                      then [message "assistant" assistant_response;
                            message "chart" (text_of chart_string)]
                      else [message "assistant" assistant_response])))))
             (fun e => ret (error_response 500 ("Error analyzing data: " ++ exn_str e)))
             executed
     | Raise e =>
         answered
         = (Ret (error_response 500 ("Error analyzing data: " ++ exn_str e)), executed)
     end
   else snd answered = w2)
  /\ store_calls (snd answered)
     = (store_calls w
        ++ CursorExecute ("DESCRIBE " ++ upload_id ++ ";")
           :: if nonempty sql then [ExecuteQuery (text_of sql)] else [])%list.
Proof.
  intros Hjson Hget Ht Hcols Hsql Hexec executed answered.
  assert (Hrun : run_execute_query svc (text_of sql) w2 = (outcome, executed)).
  { unfold run_execute_query, record_call, modify, bind. cbn [fst snd].
    unfold call, zoom. cbn [ext fs store_calls]. rewrite Hexec. done. }
  split.
  - subst answered. unfold analyze_data_endpoint.
    destruct (nonempty sql) eqn:Hne; [destruct outcome as [query_results|e]|].
    + unfold try_except, bind, ret, raise, lift; simpl.
      rewrite Hjson, Hget, Ht. simpl. rewrite Hcols, Hsql. simpl. rewrite Hne. simpl.
      rewrite Hrun. unfold jsonify, messages_response.
      destruct (call _ executed) as [[assistant_response|e] wa]; [|done].
      destruct (call _ wa) as [[chart_string|e] wb]; [|done].
      by destruct (nonempty chart_string).
    + unfold try_except, bind, ret, raise, lift; simpl.
      rewrite Hjson, Hget, Ht. simpl. rewrite Hcols, Hsql. simpl. rewrite Hne. simpl.
      by rewrite Hrun.
    + unfold try_except, bind, ret, raise, lift; simpl.
      rewrite Hjson, Hget, Ht. simpl. rewrite Hcols, Hsql. simpl. by rewrite Hne.
  - subst answered.
    pose proof (lookup_columns_returned _ _ _ _ Hcols) as C1.
    pose proof (Handling.call_frame (get_sql_query svc user_query column_names upload_id) w1)
      as [_ C2]. rewrite Hsql in C2. simpl in C2.
    unfold analyze_data_endpoint.
    rewrite (keeps_after_try_except store_calls); [|intros ?; prove_keeps].
    unfold bind at 1, lift at 1. rewrite Hjson.
    unfold bind at 1, lift at 1. rewrite Hget, Ht. cbn [negb].
    unfold bind at 1. rewrite Hcols. unfold bind at 1. rewrite Hsql.
    destruct (nonempty sql).
    + cbv zeta. rewrite (keeps_after_bind store_calls); [|intros ?; prove_keeps].
      rewrite run_execute_query_calls, C2, C1, <- app_assoc. done.
    + simpl. rewrite C2, C1. done.
Qed.

(** X17. When [execute_query] raises on the synthesized statement,
    [/analyze_data] answers 500 ["Error analyzing data: ..."] with the
    store's message; narration and charting are not reached. *)
Theorem analyze_query_error (upload_id : string) (request : Request) (w w1 w2 w3 : World)
    (payload user_query : json) (column_names sql : string) (e : exn) :
  get_json request = Ret payload ->
  dict_get payload "query" JNull = Ret user_query ->
  truthy user_query = true ->
  lookup_columns svc upload_id w = (Ret column_names, w1) ->
  call (get_sql_query svc user_query column_names upload_id) w1 = (Ret (Some sql), w2) ->
  sql <> EmptyString ->
  run_execute_query svc sql w2 = (Raise e, w3) ->
  analyze_data_endpoint svc upload_id request w
  = (Ret (error_response 500 ("Error analyzing data: " ++ exn_str e)), w3).
Proof.
  intros Hjson Hget Ht Hcols Hsql Hne Hexec. unfold analyze_data_endpoint. run.
  rewrite Hjson, Hget, Ht. simpl. rewrite Hcols, Hsql.
  apply String.eqb_neq in Hne. simpl. rewrite Hne. simpl. by rewrite Hexec.
Qed.

(** X18. When the DESCRIBE statement raises (an upload id the store does not
    know), [/analyze_data] answers 500 ["Error analyzing data: ..."] with
    the store's message, and [get_sql_query] is not called. *)
Theorem analyze_unknown_table (upload_id : string) (request : Request) (w : World)
    (payload user_query : json) (conn : Conn) (cursor : Cursor) (e1 e2 e3 : Ext) (e : exn) :
  get_json request = Ret payload ->
  dict_get payload "query" JNull = Ret user_query ->
  truthy user_query = true ->
  get_db svc (ext w) = (Ret conn, e1) ->
  conn_cursor svc conn e1 = (Ret cursor, e2) ->
  cursor_execute svc cursor ("DESCRIBE " ++ upload_id ++ ";") e2 = (Raise e, e3) ->
  analyze_data_endpoint svc upload_id request w
  = (Ret (error_response 500 ("Error analyzing data: " ++ exn_str e)),
     mkWorld (fs w)
       (store_calls w ++ [CursorExecute ("DESCRIBE " ++ upload_id ++ ";")]) e3).
Proof.
  intros Hjson Hget Ht Hdb Hcur Hex.
  unfold analyze_data_endpoint, lookup_columns, run_cursor_execute, record_call, modify,
    call, zoom. run.
  rewrite Hjson, Hget, Ht. simpl. rewrite Hdb. simpl. rewrite Hcur. simpl.
  by rewrite Hex.
Qed.

(** X19. The column names handed to [get_sql_query] are the first cells of
    the DESCRIBE rows, in row order, joined by [", "]; the other cells are
    ignored. *)
Theorem join_column_names_first_cells (columns : list (list json)) (names : list string) :
  Forall2 (fun column name => column !! 0 = Some (JStr name)) columns names ->
  join_column_names columns = Ret (join ", " names).
Proof.
  intros H. unfold join_column_names.
  assert (E : rmap (fun column => index column 0) columns = Ret (JStr <$> names)).
  { induction H as [|c n cs ns Hc _ IH]; simpl; [done|].
    unfold index at 1. rewrite Hc. simpl. by rewrite IH. }
  rewrite E. simpl.
  assert (J : forall i, join_items i (JStr <$> names) = Ret names).
  { clear. induction names as [|n ns IH]; intros i; simpl; [done|]. by rewrite IH. }
  by rewrite J.
Qed.

Lemma allowed_file_returns_rewound sn file verdict file' :
  allowed_file sn file = (Ret verdict, file') -> file' = rewind file.
Proof.
  unfold allowed_file, bind, get, lift, read, seek, try_except, ret, raise, rewind, consumed.
  simpl. destruct (index _ 1) as [ext|e]; simpl; [|done].
  destruct (String.eqb (lower ext) "csv"); simpl.
  - destruct (bytes_decode _ _ _) as [t|e]; simpl.
    + by intros [= _ <-].
    + destruct (is_UnicodeDecodeError e); simpl; [|done].
      destruct (mime_check _ _); by intros [= _ <-].
  - destruct (mime_check _ _); by intros [= _ <-].
Qed.

(** X20. A file the sniffer turns down is answered with 400 ["Unsupported
    file type"]; nothing is written and no collaborator is called. *)
Theorem upload_file_rejected_untouched (request : Request) (w : World)
    (file file' : FileStorage) :
  files request !! "file" = Some file ->
  filename file <> EmptyString ->
  allowed_file (sniffers svc) file = (Ret false, file') ->
  upload_file svc request w = (Ret (error_response 400 "Unsupported file type"), w).
Proof.
  intros Hfile Hname Hno. unfold upload_file, file_and_allowed, file_truthy. run.
  rewrite Hfile. apply String.eqb_neq in Hname. rewrite Hname. simpl.
  by rewrite Hno.
Qed.

Ltac enter_upload Hfile Hname Hok Hdb Hclean :=
  pose proof (allowed_file_returns_rewound _ _ _ _ Hok) as ->;
  unfold upload_file, file_and_allowed, file_truthy, run_clean_and_store_data, save,
    modify, call, zoom, os_remove, try_finally;
  unfold try_except, bind, ret, raise, lift; simpl;
  rewrite Hfile; apply String.eqb_neq in Hname; rewrite Hname; simpl;
  rewrite Hok; simpl; rewrite Hdb; simpl;
  unfold saved_path, consumed in Hclean; simpl in Hclean; unfold consumed; simpl;
  rewrite drop_0, Hclean; simpl.

(** X21. If ingestion removes the saved file itself, the [os.remove] of the
    [finally] block raises and [/upload] answers 500 ["Unhandled
    exception: [Errno 2] ..."], also when ingestion succeeded. *)
Theorem upload_file_missing_saved_file (request : Request) (w : World)
    (file file' : FileStorage) (conn : Conn) (e1 e2 : Ext)
    (stored : Result (option string * DataFrame)) (fs2 : gmap string bytes) :
  files request !! "file" = Some file ->
  filename file <> EmptyString ->
  allowed_file (sniffers svc) file = (Ret true, file') ->
  get_db svc (ext w) = (Ret conn, e1) ->
  clean_and_store_data svc (saved_path svc file) (consumed file) conn
    (<[saved_path svc file := stream file]> (fs w), e1) = (stored, (fs2, e2)) ->
  fs2 !! saved_path svc file = None ->
  upload_file svc request w
  = (Ret (error_response 500
            ("Unhandled exception: [Errno 2] No such file or directory: '"
             ++ saved_path svc file ++ "'")),
     mkWorld fs2 (store_calls w) e2).
Proof.
  intros Hfile Hname Hok Hdb Hclean Hgone.
  enter_upload Hfile Hname Hok Hdb Hclean.
  unfold saved_path in Hgone.
  destruct stored as [[uid df]|e]; simpl; by rewrite Hgone.
Qed.

(** X22. When [clean_and_store_data] raises, [/upload] answers 500 ["Error
    saving file: ..."] with its message and deletes the saved file. *)
Theorem upload_file_ingestion_error (request : Request) (w : World)
    (file file' : FileStorage) (conn : Conn) (e1 e2 : Ext) (e : exn)
    (fs2 : gmap string bytes) (left : bytes) :
  files request !! "file" = Some file ->
  filename file <> EmptyString ->
  allowed_file (sniffers svc) file = (Ret true, file') ->
  get_db svc (ext w) = (Ret conn, e1) ->
  clean_and_store_data svc (saved_path svc file) (consumed file) conn
    (<[saved_path svc file := stream file]> (fs w), e1) = (Raise e, (fs2, e2)) ->
  fs2 !! saved_path svc file = Some left ->
  upload_file svc request w
  = (Ret (error_response 500 ("Error saving file: " ++ exn_str e)),
     mkWorld (delete (saved_path svc file) fs2) (store_calls w) e2).
Proof.
  intros Hfile Hname Hok Hdb Hclean Hleft.
  enter_upload Hfile Hname Hok Hdb Hclean.
  unfold saved_path in Hleft. by rewrite Hleft.
Qed.

(** X23. When ingestion returns an upload id and a non-empty sample,
    [/upload] answers 200 with [upload_id] and the sample encoded through
    [JSONEncoder.default], and deletes the saved file; the file written
    for ingestion holds the whole stream. *)
Theorem upload_file_success (request : Request) (w : World)
    (file file' : FileStorage) (conn : Conn) (e1 e2 : Ext) (id : string)
    (sample_data : DataFrame) (sample : json) (fs2 : gmap string bytes) (left : bytes) :
  files request !! "file" = Some file ->
  filename file <> EmptyString ->
  allowed_file (sniffers svc) file = (Ret true, file') ->
  get_db svc (ext w) = (Ret conn, e1) ->
  clean_and_store_data svc (saved_path svc file) (consumed file) conn
    (<[saved_path svc file := stream file]> (fs w), e1)
  = (Ret (Some id, sample_data), (fs2, e2)) ->
  fs2 !! saved_path svc file = Some left ->
  df_empty svc sample_data = false ->
  df_to_json svc sample_data JSONEncoder.default = Ret sample ->
  upload_file svc request w
  = (Ret (mkResponse 200 (JObj {[ "upload_id" := JStr id; "sample_data" := sample ]})),
     mkWorld (delete (saved_path svc file) fs2) (store_calls w) e2).
Proof.
  intros Hfile Hname Hok Hdb Hclean Hleft Hne Hjson.
  enter_upload Hfile Hname Hok Hdb Hclean.
  unfold saved_path in Hleft. rewrite Hleft. simpl.
  unfold upload_result. rewrite Hne. simpl. run. by rewrite Hjson.
Qed.

(** X24. When ingestion returns no upload id or an empty sample, [/upload]
    answers 400 ["Error processing file"] and deletes the saved file. *)
Theorem upload_file_nothing_ingested (request : Request) (w : World)
    (file file' : FileStorage) (conn : Conn) (e1 e2 : Ext) (upload_id : option string)
    (sample_data : DataFrame) (fs2 : gmap string bytes) (left : bytes) :
  files request !! "file" = Some file ->
  filename file <> EmptyString ->
  allowed_file (sniffers svc) file = (Ret true, file') ->
  get_db svc (ext w) = (Ret conn, e1) ->
  clean_and_store_data svc (saved_path svc file) (consumed file) conn
    (<[saved_path svc file := stream file]> (fs w), e1)
  = (Ret (upload_id, sample_data), (fs2, e2)) ->
  fs2 !! saved_path svc file = Some left ->
  upload_id = None \/ df_empty svc sample_data = true ->
  upload_file svc request w
  = (Ret (error_response 400 "Error processing file"),
     mkWorld (delete (saved_path svc file) fs2) (store_calls w) e2).
Proof.
  intros Hfile Hname Hok Hdb Hclean Hleft Hnone.
  enter_upload Hfile Hname Hok Hdb Hclean.
  unfold saved_path in Hleft. rewrite Hleft. simpl.
  unfold upload_result. destruct Hnone as [->|Hempty]; [done|].
  rewrite Hempty. by destruct upload_id.
Qed.

End Facts.

End HandlerFacts.

(* ===================================================================== *)
(** ** More on /upload_from_url                                           *)
(* ===================================================================== *)

Module UrlFacts.
Import Py FileUtils App Props Vocabulary Logic.

Section Facts.
Context {Ext Conn Cursor QueryResults DataFrame : Type}.
Variable svc : Services Ext Conn Cursor QueryResults DataFrame.
Abbreviation World := (World Ext).
Ltac run := unfold try_except, bind, ret, raise, lift; simpl.

(** X26. A download that does not answer 200 makes [/upload_from_url] answer
    500 ["Error downloading file from <url>"]; nothing is sniffed or
    written. *)
Theorem upload_from_url_bad_status (request : Request) (w : World)
    (payload url : json) (r : HttpResponse) (e1 : Ext) :
  get_json request = Ret payload ->
  dict_get payload "url" (JStr EmptyString) = Ret url ->
  requests_get svc url (ext w) = (Ret r, e1) ->
  status_code r <> 200 ->
  upload_from_url svc request w
  = (Ret (error_response 500 ("Error downloading file from " ++ format_value svc url)),
     mkWorld (fs w) (store_calls w) e1).
Proof.
  intros Hjson Hget Hreq Hstatus. unfold upload_from_url, call, zoom. run.
  rewrite Hjson, Hget. simpl. rewrite Hreq. simpl.
  apply Nat.eqb_neq in Hstatus. by rewrite Hstatus.
Qed.

(** X27. A URL that ends in a slash gives an empty filename: the file object
    is falsy, the sniffer is not run, and the answer is 400 ["Unsupported
    file type"]. *)
Theorem upload_from_url_trailing_slash (request : Request) (w : World)
    (payload : json) (before ctype : string) (r : HttpResponse) (e1 : Ext) :
  get_json request = Ret payload ->
  dict_get payload "url" (JStr EmptyString) = Ret (JStr (before ++ "/")) ->
  requests_get svc (JStr (before ++ "/")) (ext w) = (Ret r, e1) ->
  status_code r = 200 ->
  header_content_type r = Some ctype ->
  upload_from_url svc request w
  = (Ret (error_response 400 "Unsupported file type"), mkWorld (fs w) (store_calls w) e1).
Proof.
  intros Hjson Hget Hreq Hstatus Hctype.
  pose proof (HandlerFacts.last_segment_trailing_slash before) as Hseg.
  unfold upload_from_url, file_and_allowed, file_truthy, call, zoom. run.
  rewrite Hjson, Hget. simpl. rewrite Hreq, Hstatus. simpl.
  unfold last_segment in Hseg. rewrite Hseg, Hctype. done.
Qed.

(** X28. A download without a [content-type] header makes [/upload_from_url]
    answer 500 with the [KeyError], whatever the content. *)
Theorem upload_from_url_missing_content_type (request : Request) (w : World)
    (payload : json) (u : string) (r : HttpResponse) (e1 : Ext) :
  get_json request = Ret payload ->
  dict_get payload "url" (JStr EmptyString) = Ret (JStr u) ->
  requests_get svc (JStr u) (ext w) = (Ret r, e1) ->
  status_code r = 200 ->
  header_content_type r = None ->
  upload_from_url svc request w
  = (Ret (error_response 500 "Unhandled exception: 'content-type'"),
     mkWorld (fs w) (store_calls w) e1).
Proof.
  intros Hjson Hget Hreq Hstatus Hctype.
  pose proof (HandlerFacts.last_segment_defined u) as Hseg.
  unfold upload_from_url, call, zoom. run.
  rewrite Hjson, Hget. simpl. rewrite Hreq, Hstatus. simpl.
  unfold last_segment in Hseg. rewrite Hseg, Hctype. done.
Qed.
End Facts.
End UrlFacts.


(* ===================================================================== *)
(** ** query_processing.py                                                *)
(* ===================================================================== *)

Module QueryFacts.
Import Py QueryProcessing.

(** X30. [process_user_input] returns the tokens whose lowercase is not a stop
    word, in their order and with their repetitions: a token is kept
    exactly when it is a token of the question and its lowercase is not in
    the stop list, and a token that is kept occurs in the result as many
    times as in the question. *)
Theorem process_user_input_drops_stop_words (nlp : Nlp) (user_question : string) :
  sublist (process_user_input nlp user_question) (word_tokenize nlp user_question)
  /\ (forall word,
        word ∈ process_user_input nlp user_question
        <-> word ∈ word_tokenize nlp user_question
            /\ str_lower nlp word ∉ stopwords_english nlp)
  /\ (forall word,
        count_occ string_dec (process_user_input nlp user_question) word
        = if bool_decide (str_lower nlp word ∈ stopwords_english nlp) then 0
          else count_occ string_dec (word_tokenize nlp user_question) word).
Proof.
  unfold process_user_input. split; [apply Filtering.filter_sublist|]. split.
  - intros word. rewrite list_elem_of_In, filter_In, <- list_elem_of_In.
    rewrite bool_decide_eq_true, elem_of_list_to_set. done.
  - intros word. induction (word_tokenize nlp user_question) as [|t ts IH]; simpl.
    + by case_bool_decide.
    + destruct (bool_decide (str_lower nlp t ∉ _)) eqn:E; simpl.
      * rewrite IH. destruct (string_dec t word) as [->|]; [|done].
        apply bool_decide_eq_true in E. rewrite elem_of_list_to_set in E.
        by rewrite bool_decide_eq_false_2.
      * rewrite IH. destruct (string_dec t word) as [->|]; [|done].
        apply bool_decide_eq_false in E. rewrite elem_of_list_to_set in E.
        apply dec_stable in E. by rewrite bool_decide_eq_true_2.
Qed.

(** X11. [check_query_relevance] never returns a score.  It calls the
    completion service once, on the relevance prompt; when that call
    raises, its own exception is the one that leaves the function, and when
    it returns, loading the unbound global [extract_numerical_value]
    raises [NameError].  Either way the state is the one the completion
    call left. *)
Theorem check_query_relevance_never_returns {Ext Completion Score : Type}
    (completion_create : string -> string -> nat -> Run Ext Completion)
    (extract_from : Completion -> Result Score)
    (user_query dataset_context : string) (e : Ext) :
  let asked :=
    completion_create "text-davinci-003"
      (relevance_prompt user_query dataset_context) 50 e in
  check_query_relevance completion_create extract_from user_query dataset_context e
  = (match fst asked with
     | Ret _ => Raise (Exn (OtherException "NameError")
                         "name 'extract_numerical_value' is not defined")
     | Raise x => Raise x
     end, snd asked)
  /\ raised (fst (check_query_relevance completion_create extract_from
                    user_query dataset_context e)) = true.
Proof.
  cbv zeta. unfold check_query_relevance, bind, lift.
  destruct (completion_create _ _ _ e) as [[response|x] e']; simpl; done.
Qed.
End QueryFacts.

(* ===================================================================== *)
(** ** The further properties on concrete inputs                          *)
(* ===================================================================== *)

Module Instances.
Import Py FileUtils App Props Vocabulary Demo Cases.

(** A half-read CSV upload comes back rewound. *)
Lemma allowed_file_restores_position_witness :
  allowed_file demo_sniffers csv_file_half_read = (Ret true, csv_file)
  /\ (filename csv_file = filename csv_file_half_read
      /\ stream csv_file = stream csv_file_half_read
      /\ pos csv_file = 0
      /\ content_type csv_file = content_type csv_file_half_read).
Proof.
  split; [vm_compute; reflexivity|].
  apply (SnifferFacts.allowed_file_restores_position demo_sniffers csv_file_half_read
           true csv_file).
  vm_compute; reflexivity.
Defined.

(** The text file is turned down: no CSV name, no CSV MIME type. *)
Lemma allowed_file_verdict_witness :
  allowed_file demo_sniffers notes_file = (Ret false, notes_file)
  /\ exists ext,
       index (rsplit1 "." (filename notes_file)) 1 = Ret ext
       /\ false = csv_decodes demo_sniffers ext (unread notes_file)
                  || mime_check demo_sniffers (unread notes_file).
Proof.
  split; [vm_compute; reflexivity|].
  apply (SnifferFacts.allowed_file_verdict demo_sniffers notes_file false notes_file).
  vm_compute; reflexivity.
Defined.

(** [data.csv] and [REPORT.Csv] with the same bytes get the same verdict. *)
Lemma allowed_file_ignores_stem_and_case_witness :
  let other := mkFile "REPORT.Csv" csv_blob 0 "application/octet-stream" in
  (filename csv_file = "data" ++ String "." "csv"
   /\ filename other = "REPORT" ++ String "." "Csv"
   /\ lower "csv" = lower "Csv"
   /\ unread csv_file = unread other)
  /\ fst (allowed_file demo_sniffers csv_file) = fst (allowed_file demo_sniffers other).
Proof.
  cbv zeta. split; [repeat split|].
  apply (SnifferFacts.allowed_file_ignores_stem_and_case demo_sniffers csv_file
           (mkFile "REPORT.Csv" csv_blob 0 "application/octet-stream")
           "data" "REPORT" "csv" "Csv"); reflexivity.
Defined.

(** Filtering the filtered demo answer changes nothing. *)
Lemma filter_resources_idempotent_witness :
  Catalog.filter_resources (JObj catalog_answer) = Ret filtered_answer
  /\ Catalog.filter_resources filtered_answer = Ret filtered_answer.
Proof.
  split; [vm_compute; reflexivity|].
  apply (CatalogFacts.filter_resources_idempotent catalog_answer catalog_result
           [population_xlsx; population_csv; population_empty] filtered_answer).
  - vm_compute; reflexivity.
  - vm_compute; reflexivity.
  - exact Scenarios.catalog_packages_well_formed.
  - vm_compute; reflexivity.
Defined.

(** In the demo answer the stale [count] and [success] survive. *)
Lemma filter_resources_touches_results_only_witness :
  (catalog_answer !! "result" = Some (JObj catalog_result)
   /\ catalog_result !! "results"
      = Some (JList [population_xlsx; population_csv; population_empty]))
  /\ exists d' res',
       Catalog.filter_resources (JObj catalog_answer) = Ret (JObj d')
       /\ d' !! "result" = Some (JObj res')
       /\ (forall key, key <> "result" -> d' !! key = catalog_answer !! key)
       /\ (forall key, key <> "results" -> res' !! key = catalog_result !! key).
Proof.
  split; [split; vm_compute; reflexivity|].
  apply (CatalogFacts.filter_resources_touches_results_only catalog_answer catalog_result
           [population_xlsx; population_csv; population_empty]).
  - vm_compute; reflexivity.
  - vm_compute; reflexivity.
  - exact Scenarios.catalog_packages_well_formed.
Defined.

(** A CSV resource in second place hides the [null] that follows it. *)
Lemma any_csv_stops_at_first_hit_witness :
  let xlsx := JObj {[ "format" := JStr "XLSX" ]} in
  let csv := JObj {[ "format" := JStr "CSV" ]} in
  is_csv_resource csv = true
  /\ Catalog.any_csv ([xlsx] ++ csv :: [JNull]) = Ret true.
Proof.
  cbv zeta. split; [vm_compute; reflexivity|].
  apply (CatalogFacts.any_csv_stops_at_first_hit
           [JObj {[ "format" := JStr "XLSX" ]}] [JNull] (JObj {[ "format" := JStr "CSV" ]})).
  - repeat constructor. eexists. vm_compute; reflexivity.
  - vm_compute; reflexivity.
Defined.

(** One package without a resource list fails the whole answer. *)
Lemma filter_resources_fails_on_malformed_package_witness :
  Catalog.has_csv_resource population_bare = Raise (Exn KeyError "'resources'")
  /\ Catalog.filter_resources (JObj broken_answer) = Raise (Exn KeyError "'resources'").
Proof.
  split; [vm_compute; reflexivity|].
  apply (CatalogFacts.filter_resources_fails_on_malformed_package broken_answer
           broken_result [population_csv] [population_xlsx] population_bare).
  - vm_compute; reflexivity.
  - vm_compute; reflexivity.
  - repeat constructor. eexists. split; [vm_compute; reflexivity|].
    repeat constructor; eexists; vm_compute; reflexivity.
  - vm_compute; reflexivity.
Defined.

(** A dict of two time values keeps its keys. *)
Lemma default_dict_keeps_keys_witness :
  let items := [("seen", JSONEncoder.PNaT); ("day", JSONEncoder.PDate "2024-01-02")] in
  let encoded := JSONEncoder.PDict
                   [("seen", JSONEncoder.PNone); ("day", JSONEncoder.PStr "2024-01-02")] in
  JSONEncoder.default (JSONEncoder.PDict items) = Ret encoded
  /\ exists items',
       encoded = JSONEncoder.PDict items'
       /\ items'.*1 = items.*1
       /\ Forall2 (fun kv kv' => JSONEncoder.default kv.2 = Ret kv'.2) items items'.
Proof.
  cbv zeta. split; [reflexivity|].
  apply (EncoderFacts.default_dict_keeps_keys
           [("seen", JSONEncoder.PNaT); ("day", JSONEncoder.PDate "2024-01-02")]).
  reflexivity.
Defined.

(** An integer among the values makes the base encoder's refusal the
    outcome. *)
Lemma default_dict_refused_with_first_failure_witness :
  let refusal := Exn TypeError "Object of type int is not JSON serializable" in
  JSONEncoder.default (JSONEncoder.PInt 1) = Raise refusal
  /\ JSONEncoder.default
       (JSONEncoder.PDict ([("seen", JSONEncoder.PNaT)]
                           ++ ("n", JSONEncoder.PInt 1) :: [("s", JSONEncoder.PStr "x")]))
     = Raise refusal.
Proof.
  cbv zeta. split; [reflexivity|].
  apply (EncoderFacts.default_dict_refused_with_first_failure
           [("seen", JSONEncoder.PNaT)] [("s", JSONEncoder.PStr "x")] "n"
           (JSONEncoder.PInt 1)).
  - repeat constructor.
  - reflexivity.
Defined.
(** An empty query string is a missing query. *)
Lemma analyze_400_iff_query_falsy_witness :
  let svc := demo_services None no_chart csv_download in
  let request := json_request (JObj {[ "query" := JStr EmptyString ]}) in
  (get_json request = Ret (JObj {[ "query" := JStr EmptyString ]})
   /\ dict_get (JObj {[ "query" := JStr EmptyString ]}) "query" JNull
      = Ret (JStr EmptyString))
  /\ exists r w',
       analyze_data_endpoint svc "sales" request empty_world = (Ret r, w')
       /\ (status r = 400 <-> truthy (JStr EmptyString) = false)
       /\ (truthy (JStr EmptyString) = false ->
           r = error_response 400 "No query provided" /\ w' = empty_world).
Proof.
  cbv zeta. split; [split; vm_compute; reflexivity|].
  apply (HandlerFacts.analyze_400_iff_query_falsy
           (demo_services None no_chart csv_download) "sales"
           (json_request (JObj {[ "query" := JStr EmptyString ]})) empty_world
           (JObj {[ "query" := JStr EmptyString ]}) (JStr EmptyString));
    vm_compute; reflexivity.
Defined.

(** A JSON array as body. *)
Lemma json_handlers_reject_non_objects_witness :
  let svc := demo_services None no_chart csv_download in
  let request := json_request (JList [JStr "population"]) in
  analyze_data_endpoint svc "sales" request empty_world
  = (Ret (error_response 500
            "Error analyzing data: 'list' object has no attribute 'get'"), empty_world)
  /\ search svc request empty_world
     = (Ret (error_response 500 "Error in search: 'list' object has no attribute 'get'"),
        empty_world)
  /\ upload_from_url svc request empty_world
     = (Ret (error_response 500
               "Unhandled exception: 'list' object has no attribute 'get'"), empty_world).
Proof.
  cbv zeta.
  apply (HandlerFacts.json_handlers_reject_non_objects
           (demo_services None no_chart csv_download) "sales"
           (json_request (JList [JStr "population"])) empty_world
           (JList [JStr "population"])); [reflexivity | discriminate].
Defined.

(** The demo question with a synthesized statement. *)
Lemma analyze_store_calls_witness :
  let svc := demo_services (Some total_sql) no_chart csv_download in
  (lookup_columns svc "sales" empty_world = (Ret "name, amount", described)
   /\ call (get_sql_query svc (JStr "what is the total amount?") "name, amount" "sales")
        described = (Ret (Some total_sql), described)
   /\ execute_query svc total_sql tt = (Ret [JInt 30], tt))
  /\ analyze_data_endpoint svc "sales" question empty_world
     = (Ret (messages_response [message "assistant" "The total amount is 30."]),
        executed)
  /\ store_calls (snd (analyze_data_endpoint svc "sales" question empty_world))
     = [CursorExecute "DESCRIBE sales;"; ExecuteQuery total_sql].
Proof.
  cbv zeta. split; [repeat split; vm_compute; reflexivity|].
  apply (HandlerFacts.analyze_store_calls
           (demo_services (Some total_sql) no_chart csv_download) "sales" question
           empty_world described described asked (JStr "what is the total amount?")
           "name, amount" (Some total_sql) (Ret [JInt 30]) tt);
    vm_compute; reflexivity.
Defined.

(** The store rejects the synthesized statement. *)
Lemma analyze_query_error_witness :
  let svc := services_with ingest_ok (ret tt) (raise no_such_column) (Some total_sql)
               csv_download in
  run_execute_query svc total_sql described = (Raise no_such_column, executed)
  /\ analyze_data_endpoint svc "sales" question empty_world
     = (Ret (error_response 500
               "Error analyzing data: Referenced column amount not found"), executed).
Proof.
  cbv zeta. split; [vm_compute; reflexivity|].
  apply (HandlerFacts.analyze_query_error
           (services_with ingest_ok (ret tt) (raise no_such_column) (Some total_sql)
              csv_download)
           "sales" question empty_world described described executed asked
           (JStr "what is the total amount?") "name, amount" total_sql no_such_column);
    try (vm_compute; reflexivity). discriminate.
Defined.

(** The store does not know the table. *)
Lemma analyze_unknown_table_witness :
  let svc := services_with ingest_ok (raise no_such_table) (ret [JInt 30]) (Some total_sql)
               csv_download in
  cursor_execute svc tt "DESCRIBE sales;" tt = (Raise no_such_table, tt)
  /\ analyze_data_endpoint svc "sales" question empty_world
     = (Ret (error_response 500
               "Error analyzing data: Table with name sales does not exist!"),
        described).
Proof.
  cbv zeta. split; [vm_compute; reflexivity|].
  apply (HandlerFacts.analyze_unknown_table
           (services_with ingest_ok (raise no_such_table) (ret [JInt 30]) (Some total_sql)
              csv_download)
           "sales" question empty_world asked (JStr "what is the total amount?")
           tt tt tt tt tt no_such_table);
    vm_compute; reflexivity.
Defined.

(** The rows DESCRIBE returns for the demo table. *)
Lemma join_column_names_first_cells_witness :
  join_column_names [[JStr "name"; JStr "text"]; [JStr "amount"; JStr "int"]]
  = Ret "name, amount".
Proof.
  apply (HandlerFacts.join_column_names_first_cells
           [[JStr "name"; JStr "text"]; [JStr "amount"; JStr "int"]] ["name"; "amount"]).
  repeat constructor.
Defined.
(** The text file is answered with 400 and nothing is written. *)
Lemma upload_file_rejected_untouched_witness :
  allowed_file (sniffers (uploads ingest_ok)) notes_file = (Ret false, notes_file)
  /\ upload_file (uploads ingest_ok) (file_request notes_file) empty_world
     = (Ret (error_response 400 "Unsupported file type"), empty_world).
Proof.
  split; [vm_compute; reflexivity|].
  apply (HandlerFacts.upload_file_rejected_untouched (uploads ingest_ok)
           (file_request notes_file) empty_world notes_file notes_file);
    try (vm_compute; reflexivity). discriminate.
Defined.

(** Ingestion that deletes its input: the store has the table, the
    caller gets a 500. *)
Lemma upload_file_missing_saved_file_witness :
  clean_and_store_data (uploads ingest_and_unlink) saved (consumed csv_file) tt
    (<[saved := csv_blob]> ∅, tt)
  = (Ret (Some "data_csv", [sample_row]), (∅, tt))
  /\ upload_file (uploads ingest_and_unlink) (file_request csv_file) empty_world
     = (Ret (error_response 500
               "Unhandled exception: [Errno 2] No such file or directory: '/tmp/uploads/data.csv'"),
        empty_world).
Proof.
  split; [vm_compute; reflexivity|].
  apply (HandlerFacts.upload_file_missing_saved_file (uploads ingest_and_unlink)
           (file_request csv_file) empty_world csv_file csv_file tt tt tt
           (Ret (Some "data_csv", [sample_row])) ∅);
    try (vm_compute; reflexivity). discriminate.
Defined.

(** Ingestion that fails on the content. *)
Lemma upload_file_ingestion_error_witness :
  clean_and_store_data (uploads ingest_fails) saved (consumed csv_file) tt
    (<[saved := csv_blob]> ∅, tt)
  = (Raise (Exn (OtherException "ParserError") "Error tokenizing data"),
     (upload_folder_with csv_blob, tt))
  /\ upload_file (uploads ingest_fails) (file_request csv_file) empty_world
     = (Ret (error_response 500 "Error saving file: Error tokenizing data"), empty_world).
Proof.
  split; [vm_compute; reflexivity|].
  apply (HandlerFacts.upload_file_ingestion_error (uploads ingest_fails)
           (file_request csv_file) empty_world csv_file csv_file tt tt tt
           (Exn (OtherException "ParserError") "Error tokenizing data")
           (upload_folder_with csv_blob) csv_blob);
    try (vm_compute; reflexivity). discriminate.
Defined.

(** The CSV upload of the demo. *)
Lemma upload_file_success_witness :
  clean_and_store_data (uploads ingest_ok) saved (consumed csv_file) tt
    (<[saved := csv_blob]> ∅, tt)
  = (Ret (Some "data_csv", [sample_row]), (upload_folder_with csv_blob, tt))
  /\ upload_file (uploads ingest_ok) (file_request csv_file) empty_world
     = (Ret (mkResponse 200
               (JObj {[ "upload_id" := JStr "data_csv";
                        "sample_data" := JList [sample_row] ]})), empty_world).
Proof.
  split; [vm_compute; reflexivity|].
  apply (HandlerFacts.upload_file_success (uploads ingest_ok)
           (file_request csv_file) empty_world csv_file csv_file tt tt tt "data_csv"
           [sample_row] (JList [sample_row]) (upload_folder_with csv_blob) csv_blob);
    try (vm_compute; reflexivity). discriminate.
Defined.

(** Ingestion that finds nothing to store. *)
Lemma upload_file_nothing_ingested_witness :
  clean_and_store_data (uploads ingest_nothing) saved (consumed csv_file) tt
    (<[saved := csv_blob]> ∅, tt)
  = (Ret (None, []), (upload_folder_with csv_blob, tt))
  /\ upload_file (uploads ingest_nothing) (file_request csv_file) empty_world
     = (Ret (error_response 400 "Error processing file"), empty_world).
Proof.
  split; [vm_compute; reflexivity|].
  apply (HandlerFacts.upload_file_nothing_ingested (uploads ingest_nothing)
           (file_request csv_file) empty_world csv_file csv_file tt tt tt None
           [] (upload_folder_with csv_blob) csv_blob);
    try (vm_compute; reflexivity); [discriminate | by left].
Defined.

(** Whatever ingestion did, the saved path is free afterwards. *)
Lemma upload_file_removes_saved_file_witness :
  allowed_file (sniffers (uploads ingest_fails)) csv_file = (Ret true, csv_file)
  /\ fs (snd (upload_file (uploads ingest_fails) (file_request csv_file) empty_world))
     !! saved_path (uploads ingest_fails) csv_file = None.
Proof.
  split; [vm_compute; reflexivity|].
  apply (Handling.upload_file_removes_saved_file (uploads ingest_fails)
           (file_request csv_file) empty_world csv_file csv_file);
    try (vm_compute; reflexivity). discriminate.
Defined.

(** The download answers 404. *)
Lemma upload_from_url_bad_status_witness :
  let svc := services_with ingest_ok (ret tt) (ret [JInt 30]) None not_found in
  status_code not_found <> 200
  /\ upload_from_url svc (url_request "https://example.org/files/data.csv") empty_world
     = (Ret (error_response 500
               "Error downloading file from https://example.org/files/data.csv"),
        empty_world).
Proof.
  cbv zeta. split; [discriminate|].
  apply (UrlFacts.upload_from_url_bad_status
           (services_with ingest_ok (ret tt) (ret [JInt 30]) None not_found)
           (url_request "https://example.org/files/data.csv") empty_world
           (JObj {[ "url" := JStr "https://example.org/files/data.csv" ]})
           (JStr "https://example.org/files/data.csv") not_found tt);
    try (vm_compute; reflexivity). discriminate.
Defined.

(** A URL that names a directory. *)
Lemma upload_from_url_trailing_slash_witness :
  upload_from_url (uploads ingest_ok) (url_request "https://example.org/files/") empty_world
  = (Ret (error_response 400 "Unsupported file type"), empty_world).
Proof.
  apply (UrlFacts.upload_from_url_trailing_slash (uploads ingest_ok)
           (url_request "https://example.org/files/") empty_world
           (JObj {[ "url" := JStr "https://example.org/files/" ]})
           "https://example.org/files" "text/csv" csv_download tt);
    vm_compute; reflexivity.
Defined.

(** A CSV served without a content type. *)
Lemma upload_from_url_missing_content_type_witness :
  let svc := services_with ingest_ok (ret tt) (ret [JInt 30]) None
               csv_without_content_type in
  header_content_type csv_without_content_type = None
  /\ upload_from_url svc (url_request "https://example.org/files/data.csv") empty_world
     = (Ret (error_response 500 "Unhandled exception: 'content-type'"), empty_world).
Proof.
  cbv zeta. split; [reflexivity|].
  apply (UrlFacts.upload_from_url_missing_content_type
           (services_with ingest_ok (ret tt) (ret [JInt 30]) None csv_without_content_type)
           (url_request "https://example.org/files/data.csv") empty_world
           (JObj {[ "url" := JStr "https://example.org/files/data.csv" ]})
           "https://example.org/files/data.csv" csv_without_content_type tt);
    vm_compute; reflexivity.
Defined.
End Instances.
